(** * SyntraFoundation: the Gemini PDF ingestion pipeline

    A shallow embedding of [tools/ingest/pdf_ingestor_gemini.py]:
    the chunking loop and the summary fallback of [process_pdf], the
    archive update [update_valon_archive] and the result comparator
    [compare_results], and of the comparison loop of the archived
    script [compare_results.py], with the properties the specification
    states about them. *)

From Stdlib Require Import ZArith String Ascii Lia.
From Stdlib Require Import SpecFloat DecimalString.
From stdpp Require Import base option list gmap.

Local Open Scope Z_scope.

(** ** Python values *)

(** A Python [str] is a sequence of Unicode code points. *)
Abbreviation str := (list N).

(** A literal of the source, written with its ASCII characters. *)
Definition lit (s : string) : str :=
  (fun a => N_of_ascii a) <$> list_ascii_of_string s.

Module Py.

(** [len(s)] *)
Definition len {A} (s : list A) : Z := Z.of_nat (length s).

(** A slice bound as [PySlice_AdjustIndices] normalises it (step 1):
    a negative bound counts from the end, and the result is clamped
    to [0, len]. *)
Definition adjust_index (n i : Z) : Z :=
  if i <? 0 then Z.max 0 (i + n) else Z.min i n.

(** [s[lo:hi]] *)
Definition slice {A} (s : list A) (lo hi : Z) : list A :=
  let n := len s in
  let lo' := adjust_index n lo in
  let hi' := adjust_index n hi in
  take (Z.to_nat (hi' - lo')) (drop (Z.to_nat lo') s).

(** [old] is a prefix of [s]. *)
Fixpoint starts_with (old s : str) : bool :=
  match old, s with
  | [], _ => true
  | _ :: _, [] => false
  | a :: old', b :: s' => if N.eqb a b then starts_with old' s' else false
  end.

(** [needle in hay] on strings: substring test. *)
Fixpoint contains (needle hay : str) : bool :=
  match hay with
  | [] => starts_with needle []
  | _ :: hay' => starts_with needle hay || contains needle hay'
  end.

End Py.

(** ** The chunking loop of [process_pdf]

  <<
  chunks = []
  start = 0
  while start < len(content):
      end = min(start + chunk_size, len(content))
      chunks.append(content[start:end])
      start += chunk_size - overlap
  >>

  The loop state is the pair [(start, chunks)].  [chunk_loop] runs at
  most [fuel] tests of the loop condition and returns the state in
  which the condition failed, or [None] if it never failed. *)

Section Chunker.

Context {A : Type}.
Variables (chunk_size overlap : Z).
Variable content : list A.

Definition chunk_at (start : Z) : list A :=
  let end_ := Z.min (start + chunk_size) (Py.len content) in
  Py.slice content start end_.

Fixpoint chunk_loop (fuel : nat) (start : Z) (chunks : list (list A))
  : option (Z * list (list A)) :=
  match fuel with
  | O => None
  | S fuel' =>
      if start <? Py.len content
      then chunk_loop fuel' (start + (chunk_size - overlap))
                      (chunks ++ [chunk_at start])
      else Some (start, chunks)
  end.

(** The whole loop, from [start = 0] and [chunks = []].  One test of
    the condition per character and one more is all the loop needs
    when it advances ([chunker_iterates]); a loop that does not advance
    gets [None] ([chunk_loop_diverges]). *)
Definition chunker : option (list (list A)) :=
  snd <$> chunk_loop (S (length content)) 0 [].

(** The loop entered with the cursor at [start] runs its body exactly
    [k] times: the cursor is below [len(content)] at the first [k] tests
    of the condition and has reached it at the next. *)
Definition iterates (k : nat) (start : Z) : Prop :=
  (forall j : nat, (j < k)%nat ->
     start + Z.of_nat j * (chunk_size - overlap) < Py.len content)
  /\ Py.len content <= start + Z.of_nat k * (chunk_size - overlap).

(** The chunks cut at [start], [start + step], ... ([k] of them). *)
Fixpoint windows (k : nat) (start : Z) : list (list A) :=
  match k with
  | O => []
  | S k' => chunk_at start :: windows k' (start + (chunk_size - overlap))
  end.

End Chunker.

(** ** Where the chunks lie in the text *)

Section Offsets.

Context {A : Type}.
Variables (chunk_size overlap : Z).

(** The value of [start] when chunk [i] is cut. *)
Definition start_offset (i : nat) : Z := Z.of_nat i * (chunk_size - overlap).

(** One past the last position of the text that chunk [i] holds. *)
Definition end_offset (chunks : list (list A)) (i : nat) : Z :=
  start_offset i + Py.len (chunks !!! i).

(** How many positions of the text chunks [i] and [i + 1] share. *)
Definition overlap_of (chunks : list (list A)) (i : nat) : Z :=
  end_offset chunks i - start_offset (S i).

(** The text put together again from the chunks: [c[:chunk_size - overlap]]
    of every chunk but the last, then the last chunk whole. *)
Fixpoint non_overlapping (chunks : list (list A)) : list A :=
  match chunks with
  | [] => []
  | [c] => c
  | c :: rest => Py.slice c 0 (chunk_size - overlap) ++ non_overlapping rest
  end.

End Offsets.

(** ** More of Python's [str] *)

Module PyStr.

(** [str.isspace] of one code point (CPython's [_PyUnicode_IsWhitespace]). *)
Definition is_space (c : N) : bool :=
  match c with
  | 0x09 | 0x0A | 0x0B | 0x0C | 0x0D
  | 0x1C | 0x1D | 0x1E | 0x1F | 0x20 | 0x85 | 0xA0 | 0x1680
  | 0x2000 | 0x2001 | 0x2002 | 0x2003 | 0x2004 | 0x2005
  | 0x2006 | 0x2007 | 0x2008 | 0x2009 | 0x200A
  | 0x2028 | 0x2029 | 0x202F | 0x205F | 0x3000 => true
  | _ => false
  end%N.

Fixpoint lstrip (s : str) : str :=
  match s with
  | c :: s' => if is_space c then lstrip s' else s
  | [] => []
  end.

Definition rstrip (s : str) : str := reverse (lstrip (reverse s)).

(** [s.strip()] *)
Definition strip (s : str) : str := rstrip (lstrip s).

(** [sep.join(parts)] *)
Fixpoint join (sep : str) (parts : list str) : str :=
  match parts with
  | [] => []
  | [p] => p
  | p :: rest => p ++ sep ++ join sep rest
  end.

(** The scan of [s.replace(old, new)] for a non-empty [old]: [skip]
    counts the characters of a match still to pass over. *)
Fixpoint replace_scan (old new : str) (skip : nat) (s : str) : str :=
  match s with
  | [] => []
  | c :: s' =>
      match skip with
      | S k => replace_scan old new k s'
      | O =>
          if Py.starts_with old s
          then new ++ replace_scan old new (length old - 1) s'
          else c :: replace_scan old new 0 s'
      end
  end.

(** [s.replace(old, new)]: every occurrence, left to right, without
    overlap; an empty [old] matches before each character and at the
    end. *)
Definition replace (old new s : str) : str :=
  match old with
  | [] => new ++ flat_map (fun c => c :: new) s
  | _ :: _ => replace_scan old new 0 s
  end.

(** [s.endswith(suffix)] *)
Definition ends_with (suffix s : str) : bool :=
  Py.starts_with (reverse suffix) (reverse s).

(** [str(n)] of an integer, as an f-string renders it. *)
Definition of_Z (n : Z) : str :=
  lit (DecimalString.NilZero.string_of_int (Z.to_int n)).

End PyStr.

(** [os.path.join(a, b)] on POSIX paths. *)
Definition path_join (a b : str) : str :=
  if Py.starts_with (lit "/") b then b
  else if bool_decide (a = []) || PyStr.ends_with (lit "/") a then a ++ b
  else a ++ lit "/" ++ b.

(** ** JSON documents, as [json.load] returns them and [json.dump]
    takes them.  A [JObj] is a Python [dict] with [str] keys, in
    insertion order; a key occurs once. *)

#[warnings="-register-all"] Inductive json : Type :=
| JNull
| JBool (b : bool)
| JInt (n : Z)
| JFloat (f : spec_float)
| JStr (s : str)
| JArr (items : list json)
| JObj (fields : list (str * json)).

Module Dict.

Fixpoint get (k : str) (d : list (str * json)) : option json :=
  match d with
  | [] => None
  | (k', v) :: d' => if bool_decide (k' = k) then Some v else get k d'
  end.

(** [d[k] = v]: an existing key keeps its place. *)
Fixpoint set (k : str) (v : json) (d : list (str * json)) : list (str * json) :=
  match d with
  | [] => [(k, v)]
  | (k', v') :: d' =>
      if bool_decide (k' = k) then (k, v) :: d' else (k', v') :: set k v d'
  end.

End Dict.

(** Truth value of a Python object ([if x:]). *)
Definition truthy (j : json) : bool :=
  match j with
  | JNull => false
  | JBool b => b
  | JInt n => negb (n =? 0)
  | JFloat (S754_zero _) => false
  | JFloat _ => true
  | JStr s => negb (bool_decide (s = []))
  | JArr l => negb (bool_decide (l = []))
  | JObj d => negb (bool_decide (d = []))
  end.

(** ** Exceptions and outcomes *)

Inductive exn : Type :=
| FileNotFoundError (path : str)
| PermissionError (path : str)
| JSONDecodeError (path : str)
| KeyError (key : str)
| AttributeError (attr : str)
| TypeError
| NameError (name : str)
| LibraryError (msg : str).

Inductive outcome (A : Type) : Type :=
| Ok (a : A)
| Raise (e : exn).
Arguments Ok {A} a.
Arguments Raise {A} e.

(** What a path of the file system holds: a JSON document, something
    [json.load] rejects, or a file [open(path, "r")] is refused on. *)
Inductive file : Type :=
| JsonFile (j : json)
| NotJson
| Unreadable.

(** A call to one of the language-model services. *)
Inductive call : Type :=
| CallAnalyze (chunk : str) (chunk_index chunk_total : Z)
| CallChatGPT (prompt : str)
| CallReflect (content : str)
| CallAddMemoryNode (entry : json).

(** ** The collaborators outside this file

    [gemini_bridge], the OpenAI client, PyPDF2, [memory_engine] and the
    clock are not part of the module.  Each is an oracle over an
    abstract world. *)

Class Services : Type := {
  World : Type;
  (** [gemini_bridge.analyze_document_chunk(chunk, i, total)] *)
  analyze_document_chunk : str -> Z -> Z -> World -> str * World;
  (** [load_config] and [client.chat.completions.create] with the
      prompt as the one user message: the content of the first choice
      (a [str], as [query_chatgpt] is annotated), or the exception
      raised on the way. *)
  openai_chat : str -> World -> (exn + str) * World;
  (** [gemini_bridge.reflect_valon_consciousness(content)]: a value
      [json.dump] takes *)
  reflect_valon_consciousness : str -> World -> json * World;
  (** [PdfReader(path)] and [extract_text()] of each page in order, or
      the exception raised on the way. *)
  pdf_page_texts : str -> World -> (exn + list str) * World;
  (** [memory_engine.add_memory_node(entry)] *)
  add_memory_node : json -> World -> json * World;
  (** [datetime.now().isoformat()] *)
  now_isoformat : World -> str * World;
  (** [str(e)] of an exception *)
  exn_str : exn -> str;
  (** [str(v)] of a value that is not a [str] *)
  py_repr : json -> str
}.

(** ** The state the module's functions run in, and their monad *)

Record state `{Services} : Type := mkState {
  world : World;
  (** the files by path *)
  files : gmap str file;
  (** the lines printed so far *)
  stdout : list str;
  (** the service calls made so far *)
  calls : list call
}.

Section Monad.

Context `{Services}.

Definition M (A : Type) : Type := state -> outcome A * state.

Definition ret {A} (a : A) : M A := fun s => (Ok a, s).

Definition raise {A} (e : exn) : M A := fun s => (Raise e, s).

Definition bind {A B} (m : M A) (k : A -> M B) : M B :=
  fun s =>
    match m s with
    | (Ok a, s') => k a s'
    | (Raise e, s') => (Raise e, s')
    end.

(** [try: body  except Exception as e: handler(e)] *)
Definition try_except {A} (body : M A) (handler : exn -> M A) : M A :=
  fun s =>
    match body s with
    | (Ok a, s') => (Ok a, s')
    | (Raise e, s') => handler e s'
    end.

(** [print(line)] *)
Definition print (line : str) : M unit :=
  fun s => (Ok tt, {| world := world s; files := files s;
                      stdout := stdout s ++ [line]; calls := calls s |}).

(** A service call: the oracle runs on the world and the call is
    recorded. *)
Definition service {A} (c : call) (f : World -> A * World) : M A :=
  fun s =>
    (Ok (f (world s)).1,
     {| world := (f (world s)).2; files := files s;
        stdout := stdout s; calls := calls s ++ [c] |}).

(** An oracle that is not a language-model service (clock, PDF reader). *)
Definition ask {A} (f : World -> A * World) : M A :=
  fun s =>
    (Ok (f (world s)).1,
     {| world := (f (world s)).2; files := files s;
        stdout := stdout s; calls := calls s |}).

(** [os.path.exists(path)] *)
Definition path_exists (path : str) : M bool :=
  fun s => (Ok (bool_decide (is_Some (files s !! path))), s).

(** [with open(path, "r") as f: json.load(f)] *)
Definition read_json (path : str) : M json :=
  fun s =>
    match files s !! path with
    | None => (Raise (FileNotFoundError path), s)
    | Some Unreadable => (Raise (PermissionError path), s)
    | Some NotJson => (Raise (JSONDecodeError path), s)
    | Some (JsonFile j) => (Ok j, s)
    end.

(** [with open(path, "w") as f: json.dump(j, f, indent=2)]; the vault
    directories are made when the module is imported. *)
Definition write_json (path : str) (j : json) : M unit :=
  fun s => (Ok tt, {| world := world s; files := <[path := JsonFile j]> (files s);
                      stdout := stdout s; calls := calls s |}).

End Monad.

Notation "'let*' x ':=' m 'in' k" := (bind m (fun x => k))
  (at level 10, x pattern, m at level 100, k at level 200).
Notation "m ';;' k" := (bind m (fun _ => k))
  (at level 100, k at level 200, right associativity).

(** A computation that only reads and prints: files, world and call
    record are as before, and the output has only grown. *)
Definition readonly `{Services} {A} (m : M A) : Prop :=
  forall s,
    files (m s).2 = files s /\ world (m s).2 = world s
    /\ calls (m s).2 = calls s
    /\ exists out, stdout (m s).2 = stdout s ++ out.

(** A computation that returns only values satisfying [P] (it may
    raise instead). *)
Definition returns `{Services} {A} (P : A -> Prop) (m : M A) : Prop :=
  forall s a s', m s = (Ok a, s') -> P a.

(** ** Operations on values that may raise *)

Section Values.

Context `{Services}.

(** [str(v)], as an f-string renders [v]. *)
Definition py_str (v : json) : str :=
  match v with
  | JStr s => s
  | _ => py_repr v
  end.

(** [v.get(key, default)] *)
Definition py_get (v : json) (key : str) (dflt : json) : M json :=
  match v with
  | JObj d => ret (default dflt (Dict.get key d))
  | _ => raise (AttributeError (lit "get"))
  end.

(** [len(v)] *)
Definition py_len (v : json) : M Z :=
  match v with
  | JStr s => ret (Py.len s)
  | JArr l => ret (Py.len l)
  | JObj d => ret (Py.len d)
  | _ => raise TypeError
  end.

(** [v[key]] with a [str] key *)
Definition py_getitem (v : json) (key : str) : M json :=
  match v with
  | JObj d =>
      match Dict.get key d with
      | Some x => ret x
      | None => raise (KeyError key)
      end
  | _ => raise TypeError
  end.

(** [v.append(x)], returning the list after the call; the attribute is
    looked up before the argument [x] is evaluated *)
Definition py_append (v : json) (arg : M json) : M json :=
  match v with
  | JArr l => let* x := arg in ret (JArr (l ++ [x]))
  | _ => raise (AttributeError (lit "append"))
  end.

End Values.

(** ** [tools/ingest/pdf_ingestor_gemini.py] *)

(** The newline character of the source's literals. *)
Definition nl : str := [10%N].

Definition SOURCE_DIR : str := lit "source_pdfs".
Definition MEMORY_VAULT : str := lit "memory_vault".
Definition MODI_DIR : str := path_join MEMORY_VAULT (lit "modi").
Definition VALON_DIR : str := path_join MEMORY_VAULT (lit "valon").
Definition VALON_ARCHIVE : str :=
  path_join VALON_DIR (lit "valon_symbolic_archive.json").
Definition ENTROPY_DIR : str := lit "entropy_logs".

(** The archive [update_valon_archive] starts from when the file is
    absent. *)
Definition empty_archive : json :=
  JObj [(lit "symbolic_events", JArr []); (lit "drift_logs", JArr []);
        (lit "reasoning_blends", JArr []); (lit "dream_logs", JArr [])].

(** The record [update_valon_archive] appends to [symbolic_events]. *)
Definition symbolic_event (filename : str) (reflection : json) (timestamp : str)
  : json :=
  JObj [(lit "source", JStr filename);
        (lit "reflected", reflection);
        (lit "timestamp", JStr timestamp)].

(** The entry [log_error] appends to the error log. *)
Definition error_entry (reason filename timestamp : str) : json :=
  JObj [(lit "timestamp", JStr timestamp);
        (lit "source", JStr filename);
        (lit "reason", JStr reason);
        (lit "flag", JStr (lit "processing_error"))].

(** The four sequences an archive names. *)
Definition archive_keys : list str :=
  [lit "symbolic_events"; lit "drift_logs"; lit "reasoning_blends"; lit "dream_logs"].

(** The sequence an archive holds under [key]. *)
Definition sequence_of (key : str) (archive : json) : option (list json) :=
  match archive with
  | JObj d =>
      match Dict.get key d with
      | Some (JArr l) => Some l
      | _ => None
      end
  | _ => None
  end.

(** An archive is valid when it is an object holding a sequence under
    each of the four names. *)
Definition valid_archive (archive : json) : bool :=
  forallb (fun key => bool_decide (is_Some (sequence_of key archive))) archive_keys.

(** The archive before an update: the document of the file, or the
    empty archive when there is no file. *)
Definition prior_archive (fs : gmap str file) : option json :=
  match fs !! VALON_ARCHIVE with
  | None => Some empty_archive
  | Some (JsonFile j) => Some j
  | Some _ => None
  end.

(** The path of the error log ([log_path] in [log_error]). *)
Definition log_path : str := path_join ENTROPY_DIR (lit "processing_errors.json").

(** The error log before an entry is added: the list of the file, or
    the empty list when there is no file. *)
Definition prior_error_log (fs : gmap str file) : option (list json) :=
  match fs !! log_path with
  | None => Some []
  | Some (JsonFile (JArr l)) => Some l
  | Some _ => None
  end.

(** The exception [open] or [json.load] raises on [path], if any. *)
Definition read_error (fs : gmap str file) (path : str) : option exn :=
  match fs !! path with
  | None => Some (FileNotFoundError path)
  | Some Unreadable => Some (PermissionError path)
  | Some NotJson => Some (JSONDecodeError path)
  | Some (JsonFile _) => None
  end.

(** The two local constants of [process_pdf]. *)
Definition CHUNK_SIZE : Z := 3000.
Definition OVERLAP : Z := 500.

(** The chunks [process_pdf] cuts; the loop ends for these constants
    ([chunker_process_pdf_total]). *)
Definition chunks_of (content : str) : list str :=
  default [] (chunker CHUNK_SIZE OVERLAP content).

(** The text of the pages: [text += f"\n--- Page {i+1} ---\n{page_text}\n"]
    for each page whose text is not empty. *)
Fixpoint page_blocks (i : Z) (pages : list str) : str :=
  match pages with
  | [] => []
  | page_text :: rest =>
      (if bool_decide (page_text = []) then []
       else nl ++ lit "--- Page " ++ PyStr.of_Z (i + 1) ++ lit " ---" ++ nl
               ++ page_text ++ nl)
      ++ page_blocks (i + 1) rest
  end.

(** The prompt of the fallback call. *)
Definition fallback_prompt (chunk : str) : str :=
  lit "Summarize and extract key points from this section of a vehicle service manual:"
  ++ nl ++ nl ++ chunk.

(** [ "Error:" in response or "timed out" in response ] *)
Definition is_error_response (response : str) : bool :=
  Py.contains (lit "Error:") response || Py.contains (lit "timed out") response.

(** [f"--- Chunk {i+1} ---\n{response.strip()}"] *)
Definition summary_block (i : Z) (response : str) : str :=
  lit "--- Chunk " ++ PyStr.of_Z (i + 1) ++ lit " ---" ++ nl ++ PyStr.strip response.

Section Ingestor.

Context `{Services}.

Definition query_chatgpt (prompt : str) : M str :=
  let* r := service (CallChatGPT prompt) (openai_chat prompt) in
  match r with
  | inr content => ret content
  | inl e =>
      print (lit "[ERROR] ChatGPT query failed: " ++ exn_str e);;
      ret (lit "Error: " ++ exn_str e)
  end.

Definition log_error (reason filename : str) : M unit :=
  let* timestamp := ask now_isoformat in
  let entry := error_entry reason filename timestamp in
  let* present := path_exists log_path in
  let* logs := (if present then read_json log_path else ret (JArr [])) in
  let* logs := py_append logs (ret entry) in
  write_json log_path logs;;
  print (lit "[ERROR] " ++ reason ++ lit " for " ++ filename).

(** [None] is Python's [None]. *)
Definition extract_text_from_pdf (pdf_path : str) : M (option str) :=
  print (lit "[INFO] Extracting text from " ++ pdf_path);;
  let* r := ask (pdf_page_texts pdf_path) in
  match r with
  | inr pages => ret (Some (page_blocks 0 pages))
  | inl e =>
      print (lit "[ERROR] Failed to extract text: " ++ exn_str e);;
      ret None
  end.

Definition reflect_valon (content : str) : M json :=
  service (CallReflect content) (reflect_valon_consciousness content).

Definition update_valon_archive (filename : str) (reflection : json) : M unit :=
  let* present := path_exists VALON_ARCHIVE in
  let* archive := (if present then read_json VALON_ARCHIVE else ret empty_archive) in
  let* events := py_getitem archive (lit "symbolic_events") in
  let* events := py_append events
    (let* timestamp := ask now_isoformat in
     ret (symbolic_event filename reflection timestamp)) in
  (* the list is changed where it is, inside [archive] *)
  let archive :=
    match archive with
    | JObj d => JObj (Dict.set (lit "symbolic_events") events d)
    | _ => archive
    end in
  write_json VALON_ARCHIVE archive;;
  print (lit "[INFO] Updated VALON archive with " ++ filename).

(** The body of [for i, chunk in enumerate(chunks)]; [total] is
    [len(chunks)].  It returns the string appended to [summaries]. *)
Definition summarize_chunk (i total : Z) (chunk : str) : M str :=
  print (lit "[INFO] Summarizing chunk " ++ PyStr.of_Z (i + 1) ++ lit "/"
           ++ PyStr.of_Z total ++ lit " with Gemini...");;
  let* response :=
    service (CallAnalyze chunk i total) (analyze_document_chunk chunk i total) in
  let* response :=
    (if is_error_response response
     then print (lit "[INFO] Gemini failed on chunk " ++ PyStr.of_Z (i + 1)
                   ++ lit ", falling back to ChatGPT");;
          query_chatgpt (fallback_prompt chunk)
     else ret response) in
  ret (summary_block i response).

Fixpoint summarize_loop (i total : Z) (chunks summaries : list str)
  : M (list str) :=
  match chunks with
  | [] => ret summaries
  | chunk :: rest =>
      let* block := summarize_chunk i total chunk in
      summarize_loop (i + 1) total rest (summaries ++ [block])
  end.

(** [filename.replace('.pdf', '')] *)
Definition stem (filename : str) : str := PyStr.replace (lit ".pdf") [] filename.

Definition modi_path (filename : str) : str :=
  path_join MODI_DIR (stem filename ++ lit "_gemini.json").

Definition valon_path (filename : str) : str :=
  path_join VALON_DIR (stem filename ++ lit "_gemini.json").

Definition process_pdf (filepath filename : str) (link : bool) : M bool :=
  print (lit "[INFO] Processing " ++ filename ++ lit " with Gemini");;
  let* extracted := extract_text_from_pdf filepath in
  match extracted with
  | Some ((_ :: _) as content) =>
      print (lit "[INFO] Generating full summary from chunked content for "
               ++ filename);;
      let chunks := chunks_of content in
      let* summaries := summarize_loop 0 (Py.len chunks) chunks [] in
      let summary := PyStr.join (nl ++ nl) summaries in
      let* reflection := reflect_valon content in
      print (lit "[INFO] Saving " ++ filename ++ lit " to MODI memory");;
      let* timestamp := ask now_isoformat in
      let entry := [(lit "source", JStr filename);
                    (lit "timestamp", JStr timestamp);
                    (lit "content_sample", JStr (Py.slice content 0 5000));
                    (lit "full_content_length", JInt (Py.len content));
                    (lit "summary", JStr summary);
                    (lit "valon_reflection", reflection);
                    (lit "processor", JStr (lit "gemini"))] in
      (* [assign_uid] is bound nowhere in the module *)
      (if link then raise (NameError (lit "assign_uid")) else ret tt);;
      let* hybrid_uid :=
        service (CallAddMemoryNode (JObj entry)) (add_memory_node (JObj entry)) in
      let entry :=
        if truthy hybrid_uid
        then Dict.set (lit "hybrid_uid") hybrid_uid entry
        else entry in
      write_json (modi_path filename) (JObj entry);;
      update_valon_archive filename reflection;;
      write_json (valon_path filename)
        (JObj [(lit "summary", JStr summary); (lit "reflection", reflection)]);;
      print (lit "[INFO] VALON summary saved to " ++ valon_path filename);;
      print (lit "[SUCCESS] " ++ filename ++ lit " processed successfully with Gemini");;
      ret true
  | _ =>
      (* [if not content:] the text is [None] or empty *)
      log_error (lit "Failed to extract text") filename;;
      ret false
  end.

(** The statements under [try:] in [compare_results]. *)
Definition compare_results_try (original_file gemini_file : str) : M bool :=
    (let* original_data := read_json original_file in
     let* gemini_data := read_json gemini_file in
     print (nl ++ lit "=== COMPARISON RESULTS ===");;
     let* p := py_get original_data (lit "processor") (JStr (lit "mistral")) in
     print (lit "Original processor: " ++ py_str p);;
     let* p := py_get gemini_data (lit "processor") (JStr (lit "gemini")) in
     print (lit "Gemini processor: " ++ py_str p);;
     let* v := py_get original_data (lit "summary") (JStr []) in
     let* original_summary_len := py_len v in
     let* v := py_get gemini_data (lit "summary") (JStr []) in
     let* gemini_summary_len := py_len v in
     print (lit "Summary length - Original: " ++ PyStr.of_Z original_summary_len
              ++ lit ", Gemini: " ++ PyStr.of_Z gemini_summary_len);;
     let* original_valon := py_get original_data (lit "valon_reflection") (JObj []) in
     let* gemini_valon := py_get gemini_data (lit "valon_reflection") (JObj []) in
     print (nl ++ lit "=== VALON REFLECTION COMPARISON ===");;
     let* v := py_get original_valon (lit "symbolic_terms") (JArr []) in
     print (lit "Original symbolic terms: " ++ py_str v);;
     let* v := py_get gemini_valon (lit "symbolic_terms") (JArr []) in
     print (lit "Gemini symbolic terms: " ++ py_str v);;
     let* v := py_get original_valon (lit "emotions") (JArr []) in
     print (lit "Original emotions: " ++ py_str v);;
     let* v := py_get gemini_valon (lit "emotions") (JArr []) in
     print (lit "Gemini emotions: " ++ py_str v);;
     ret true).

Definition compare_results (original_file gemini_file : str) : M bool :=
  try_except
    (compare_results_try original_file gemini_file)
    (fun e =>
       print (lit "[ERROR] Failed to compare results: " ++ exn_str e);;
       ret false).

(** The [--compare] branch of [main]; [compare] is [args.compare]. *)
Definition main_compare (compare : str) : M unit :=
  let original_file := PyStr.replace (lit "_gemini.json") (lit ".json") compare in
  let* e1 := path_exists original_file in
  let* e2 := path_exists compare in
  if e1 && e2
  then compare_results original_file compare;; ret tt
  else print (lit "[ERROR] Cannot compare - missing files: " ++ original_file
                ++ lit " or " ++ compare).

End Ingestor.

(** ** [archived_tests/.../python_tests/compare_results.py]

    The body of [for gemini_result in gemini_results:] of the archived
    comparison script; [mistral_files] is the list its walk of
    [memory_vault] made. *)

(** The marks the script prints. *)
Definition cross_mark : str := [0x274C%N].
Definition check_mark : str := [0x2705%N].

Section ArchivedComparison.

Context `{Services}.

(** [v.replace(old, new)] *)
Definition py_replace (v : json) (old new : str) : M str :=
  match v with
  | JStr s => ret (PyStr.replace old new s)
  | _ => raise (AttributeError (lit "replace"))
  end.

(** [v[:n] + suffix] with a [str] suffix; a value that is not a [str]
    cannot be sliced or cannot be added to one. *)
Definition py_head_plus (v : json) (n : Z) (suffix : str) : M str :=
  match v with
  | JStr s => ret (Py.slice s 0 n ++ suffix)
  | _ => raise TypeError
  end.

(** The search for a file whose path contains the source name without
    [.pdf]; the first match wins. *)
Fixpoint find_matching (source_name : json) (mistral_files : list str)
  : M (option str) :=
  match mistral_files with
  | [] => ret None
  | mistral_file :: rest =>
      let* stem := py_replace source_name (lit ".pdf") [] in
      if Py.contains stem mistral_file
      then ret (Some mistral_file)
      else find_matching source_name rest
  end.

(** The statements under [try:]. *)
Definition compare_record_try (gemini_result : json) (matching_mistral : str)
  : M unit :=
  let* mistral_data := read_json matching_mistral in
  print (check_mark ++ lit " Found matching Mistral file: " ++ matching_mistral);;
  let* v := py_get gemini_result (lit "analysis") (JStr []) in
  let* gemini_analysis_len := py_len v in
  let* v := py_get mistral_data (lit "summary") (JStr []) in
  let* mistral_summary_len := py_len v in
  print (lit "Analysis length - Gemini: " ++ PyStr.of_Z gemini_analysis_len
           ++ lit ", Mistral: " ++ PyStr.of_Z mistral_summary_len);;
  let* gemini_valon := py_get gemini_result (lit "valon_reflection") (JStr []) in
  let* mistral_valon := py_get mistral_data (lit "valon_reflection") (JStr []) in
  let mistral_valon :=
    match mistral_valon with
    | JObj _ => JStr (py_repr mistral_valon)
    | _ => mistral_valon
    end in
  let* gemini_valon_len := py_len gemini_valon in
  let* mistral_valon_len := py_len mistral_valon in
  print (lit "VALON reflection length - Gemini: " ++ PyStr.of_Z gemini_valon_len
           ++ lit ", Mistral: " ++ PyStr.of_Z mistral_valon_len);;
  print (nl ++ lit "Gemini Analysis (first 200 chars):");;
  let* v := py_get gemini_result (lit "analysis") (JStr []) in
  let* line := py_head_plus v 200 (lit "...") in
  print line;;
  print (nl ++ lit "Mistral Summary (first 200 chars):");;
  let* v := py_get mistral_data (lit "summary") (JStr []) in
  let* line := py_head_plus v 200 (lit "...") in
  print line.

Definition compare_record (mistral_files : list str) (gemini_result : json)
  : M unit :=
  match gemini_result with
  | JObj _ =>
      let* source_name :=
        py_get gemini_result (lit "source") (JStr (lit "unknown")) in
      print (nl ++ lit "--- Comparing " ++ py_str source_name ++ lit " ---");;
      let* matching_mistral := find_matching source_name mistral_files in
      match matching_mistral with
      | Some ((_ :: _) as mistral_file) =>
          try_except
            (compare_record_try gemini_result mistral_file)
            (fun e =>
               print (cross_mark ++ lit " Error comparing " ++ py_str source_name
                        ++ lit ": " ++ exn_str e))
      | _ =>
          (* [if matching_mistral:] fails on [None] and on an empty path *)
          print (cross_mark ++ lit " No matching Mistral file found for "
                   ++ py_str source_name)
      end
  | _ =>
      (* [if not isinstance(gemini_result, dict): continue] *)
      ret tt
  end.

End ArchivedComparison.

(** ** A closed world, to run the module in

    Every service answers with a fixed value; the world is [unit]. *)

Definition fixed_services (primary : str) (secondary : exn + str)
    (pages : exn + list str) : Services :=
  {| World := unit;
     analyze_document_chunk := fun _ _ _ w => (primary, w);
     openai_chat := fun _ w => (secondary, w);
     reflect_valon_consciousness := fun _ w => (JObj [], w);
     pdf_page_texts := fun _ w => (pages, w);
     add_memory_node := fun _ w => (JNull, w);
     now_isoformat := fun w => (lit "2025-07-01T12:00:00", w);
     exn_str := fun e => match e with LibraryError msg => msg | _ => lit "error" end;
     py_repr := fun _ => lit "?" |}.

(** The state before anything ran: [fs] on disk, nothing printed, no
    call made. *)
Definition start_state `{Services} (w : World) (fs : gmap str file) : state :=
  {| world := w; files := fs; stdout := []; calls := [] |}.

(** ** Closed inputs *)

(** A text of [n] characters. *)
Definition text_of_length (n : nat) : str := replicate n 97%N.

(** An error string in brackets, as a provider wrapper may return it. *)
Definition bracket_error : str := lit "[ERROR: API request failed - 500]".

(** The primary provider answers with [bracket_error]; the secondary
    provider would answer with a summary. *)
Definition bracket_services : Services :=
  fixed_services bracket_error (inr (lit "A summary.")) (inr [lit "Brake fluid."]).

(** The primary provider answers with an [Error:] string and the
    secondary provider fails too. *)
Definition quota_services : Services :=
  fixed_services (lit "Error: quota exceeded")
    (inl (LibraryError (lit "connection refused"))) (inr [lit "Brake fluid."]).

(** A PDF of one page that has no text. *)
Definition blank_services : Services :=
  fixed_services [] (inr []) (inr [[]]).

(** An archive that already holds one event and a fifth key. *)
Definition used_archive : json :=
  JObj [(lit "symbolic_events",
         JArr [symbolic_event (lit "a.pdf") JNull (lit "2025-06-30T09:00:00")]);
        (lit "drift_logs", JArr [JInt 1]);
        (lit "reasoning_blends", JArr []);
        (lit "dream_logs", JArr []);
        (lit "note", JStr (lit "kept"))].

(** [summarize_chunk] on a chunk whose primary answer is [bracket_error]. *)
Definition bracket_run : outcome str * state :=
  @summarize_chunk bracket_services 0 1 (lit "text")
    (@start_state bracket_services tt ∅).

(** [process_pdf] on the PDF without text, nothing on disk before. *)
Definition blank_run : outcome bool * state :=
  @process_pdf blank_services (lit "source_pdfs/blank.pdf") (lit "blank.pdf") false
    (@start_state blank_services tt ∅).

(** ** The rest of [pdf_ingestor_gemini.py] *)

(** [os.path.basename(p)] on POSIX paths: what follows the last [/]. *)
Fixpoint basename_from (p acc : str) : str :=
  match p with
  | [] => acc
  | c :: p' => if N.eqb c 47 then basename_from p' [] else basename_from p' (acc ++ [c])
  end.

Definition basename (p : str) : str := basename_from p [].

(** What [argparse] hands to [main]: [--file], [--link], [--compare]. *)
Record arguments : Type := {
  arg_file : option str;
  arg_link : bool;
  arg_compare : option str
}.

Section Drivers.

Context `{Services}.

(** The loop of [process_directory] over [os.listdir(SOURCE_DIR)], with
    its two counters. *)
Fixpoint process_directory_loop (listing : list str) (link : bool)
    (processed failed : Z) : M (Z * Z) :=
  match listing with
  | [] => ret (processed, failed)
  | filename :: rest =>
      if PyStr.ends_with (lit ".pdf") filename
      then
        let filepath := path_join SOURCE_DIR filename in
        let* done := process_pdf filepath filename link in
        if done
        then process_directory_loop rest link (processed + 1) failed
        else process_directory_loop rest link processed (failed + 1)
      else process_directory_loop rest link processed failed
  end.

(** [listing] is what [os.listdir(SOURCE_DIR)] returns, in its order. *)
Definition process_directory (listing : list str) (link : bool) : M unit :=
  print (lit "[INFO] Checking " ++ SOURCE_DIR ++ lit " for PDFs (Gemini processing)");;
  let* counts := process_directory_loop listing link 0 0 in
  print (lit "[COMPLETE] Processed " ++ PyStr.of_Z counts.1
           ++ lit " PDFs with Gemini, " ++ PyStr.of_Z counts.2 ++ lit " failed").

Definition process_specific_file (filepath : str) (link : bool) : M unit :=
  let filename := basename filepath in
  if PyStr.ends_with (lit ".pdf") filename
  then
    let* done := process_pdf filepath filename link in
    if done
    then print (lit "[COMPLETE] Successfully processed " ++ filename ++ lit " with Gemini")
    else print (lit "[COMPLETE] Failed to process " ++ filename ++ lit " with Gemini")
  else print (lit "[ERROR] " ++ filepath ++ lit " is not a PDF file").

(** [main] after [parser.parse_args()]; an option that was not given is
    [None], and [if args.file:] fails on [None] and on an empty string. *)
Definition main (args : arguments) (listing : list str) : M unit :=
  match arg_file args with
  | Some ((_ :: _) as file) => process_specific_file file (arg_link args)
  | _ =>
      match arg_compare args with
      | Some ((_ :: _) as compare) => main_compare compare
      | _ => process_directory listing (arg_link args)
      end
  end.

End Drivers.

(** ** The whole of the archived [compare_results.py] *)

Module CompareScript.

(** [file.endswith(".json") and not file.endswith("_gemini.json")] *)
Definition is_mistral_name (file : str) : bool :=
  PyStr.ends_with (lit ".json") file
  && negb (PyStr.ends_with (lit "_gemini.json") file).

(** The list the two loops over [os.walk("memory_vault")] make; [walk]
    holds the [(root, files)] of each directory, in the order of the
    walk. *)
Definition mistral_files_of (walk : list (str * list str)) : list str :=
  flat_map
    (fun entry => (fun file => path_join entry.1 file)
                    <$> List.filter is_mistral_name entry.2)
    walk.

Section Script.

Context `{Services}.

(** The values a [for] loop over [v] takes. *)
Definition py_iter (v : json) : M (list json) :=
  match v with
  | JArr l => ret l
  | JObj d => ret ((fun kv => JStr kv.1) <$> d)
  | JStr s => ret ((fun c => JStr [c]) <$> s)
  | _ => raise TypeError
  end.

Fixpoint compare_records (mistral_files : list str) (gemini_results : list json)
  : M unit :=
  match gemini_results with
  | [] => ret tt
  | gemini_result :: rest =>
      compare_record mistral_files gemini_result;;
      compare_records mistral_files rest
  end.

Definition compare_results (walk : list (str * list str)) : M unit :=
  print (lit "=== SYNTRA Results Comparison ===");;
  let gemini_file := lit "gemini_test_results.json" in
  let* present := path_exists gemini_file in
  if negb present
  then print (cross_mark ++ lit " " ++ gemini_file
                ++ lit " not found. Run test_gemini_pdf.py first.")
  else
    let mistral_files := mistral_files_of walk in
    if bool_decide (mistral_files = [])
    then print (cross_mark ++ lit " No existing Mistral results found in memory_vault/")
    else
      print (lit "Found " ++ PyStr.of_Z (Py.len mistral_files)
               ++ lit " Mistral result files");;
      let* gemini_results := read_json gemini_file in
      let* count := py_len gemini_results in
      print (lit "Found " ++ PyStr.of_Z count ++ lit " Gemini results");;
      let* items := py_iter gemini_results in
      compare_records mistral_files items;;
      print (nl ++ lit "--- Comparison complete ---");;
      print (lit "Delete gemini_test_results.json when done to remove API key.").

End Script.

End CompareScript.

(** ** Readings of the vault *)

(** The events the archive holds before an update, when the update can
    find them: the file is absent, or it holds an object with a list
    under [symbolic_events]. *)
Definition archive_events (fs : gmap str file) : option (list json) :=
  prior_archive fs ≫= sequence_of (lit "symbolic_events").

(** The calls to the primary provider among [cs], with their arguments. *)
Definition analyze_calls (cs : list call) : list (str * Z * Z) :=
  omap (fun c => match c with
                 | CallAnalyze chunk i total => Some (chunk, i, total)
                 | _ => None
                 end) cs.

(** A value [len] accepts. *)
Definition has_len (v : json) : bool :=
  match v with
  | JStr _ | JArr _ | JObj _ => true
  | _ => false
  end.

(** A value with a [get] method. *)
Definition is_dict (v : json) : bool :=
  match v with
  | JObj _ => true
  | _ => false
  end.

(** A record [compare_results] of the ingestor gets through: an object
    whose summary (if any) has a length and whose reflection (if any) is
    an object. *)
Definition comparable (record : json) : bool :=
  match record with
  | JObj d =>
      has_len (default (JStr []) (Dict.get (lit "summary") d))
      && is_dict (default (JObj []) (Dict.get (lit "valon_reflection") d))
  | _ => false
  end.

(** [len(v)] of a value that has one. *)
Definition value_len (v : json) : Z :=
  match v with
  | JStr s => Py.len s
  | JArr l => Py.len l
  | JObj d => Py.len d
  | _ => 0
  end.

(** The entry [process_pdf] builds before the hybrid link. *)
Definition result_entry (filename timestamp content summary : str)
    (reflection : json) : list (str * json) :=
  [(lit "source", JStr filename);
   (lit "timestamp", JStr timestamp);
   (lit "content_sample", JStr (Py.slice content 0 5000));
   (lit "full_content_length", JInt (Py.len content));
   (lit "summary", JStr summary);
   (lit "valon_reflection", reflection);
   (lit "processor", JStr (lit "gemini"))].

(** ** More closed inputs *)

(** The PDF reader raises. *)
Definition broken_reader_services : Services :=
  fixed_services [] (inr [])
    (inl (LibraryError (lit "EOF marker not found"))).

(** An error log that holds an object, not a list. *)
Definition corrupt_log : gmap str file :=
  {[log_path := JsonFile (JObj [])]}.

(** An archive file without [symbolic_events]. *)
Definition corrupt_archive : gmap str file :=
  {[VALON_ARCHIVE := JsonFile (JObj [(lit "drift_logs", JArr [])])]}.

(** An archive with its events and nothing else. *)
Definition bare_archive : list (str * json) :=
  [(lit "symbolic_events", JArr [])].

(** Two result records on disk, and the results file of the archived
    test with an error string for its one PDF. *)
Definition two_records : gmap str file :=
  {[lit "a.json" :=
      JsonFile (JObj [(lit "summary", JStr (lit "abc"));
                      (lit "valon_reflection", JObj [(lit "emotions", JArr [])])]);
    lit "a_gemini.json" :=
      JsonFile (JObj [(lit "summary", JStr (lit "xyz")); (lit "processor", JStr (lit "gemini"))]);
    lit "gemini_test_results.json" :=
      JsonFile (JArr [JStr (lit "[ERROR: Failed to extract text: EOF]")])]}.

(** A source directory where [blank.pdf] is one page without text and
    every other PDF one page of text; the providers answer with a
    summary. *)
Definition mixed_services : Services :=
  {| World := unit;
     analyze_document_chunk := fun _ _ _ w => (lit "A summary.", w);
     openai_chat := fun _ w => (inr (lit "A summary."), w);
     reflect_valon_consciousness := fun _ w => (JObj [], w);
     pdf_page_texts := fun path w =>
       (if PyStr.ends_with (lit "blank.pdf") path
        then inr [[]] else inr [lit "Brake fluid."], w);
     add_memory_node := fun _ w => (JNull, w);
     now_isoformat := fun w => (lit "2025-07-01T12:00:00", w);
     exn_str := fun e => match e with LibraryError msg => msg | _ => lit "error" end;
     py_repr := fun _ => lit "?" |}.

(** * Properties *)

(** ** The model on small inputs *)

Example slice_negative : Py.slice (lit "abcdef") (-3) (-1) = lit "de".
Proof. reflexivity. Qed.

Example slice_past_end : Py.slice (lit "abcdef") 2 100 = lit "cdef".
Proof. reflexivity. Qed.

Example strip_both_ends : PyStr.strip (nl ++ lit "  ab c " ++ nl) = lit "ab c".
Proof. reflexivity. Qed.

Example replace_every : PyStr.replace (lit ".pdf") [] (lit "a.pdfb.pdf.pd") = lit "ab.pd".
Proof. reflexivity. Qed.

Example error_marker_is_case_sensitive :
  Py.contains (lit "Error:") (lit "x Error: y") = true
  /\ Py.contains (lit "Error:") (lit "[ERROR: y]") = false.
Proof. split; reflexivity. Qed.

Example vault_paths :
  VALON_ARCHIVE = lit "memory_vault/valon/valon_symbolic_archive.json"
  /\ modi_path (lit "a.pdf") = lit "memory_vault/modi/a_gemini.json"
  /\ log_path = lit "entropy_logs/processing_errors.json".
Proof. repeat split; reflexivity. Qed.

Example chunker_abcde :
  chunker 4 2 (lit "abcde") = Some [lit "abcd"; lit "cde"; lit "e"].
Proof. reflexivity. Qed.

Example chunker_empty : chunker CHUNK_SIZE OVERLAP ([] : str) = Some [].
Proof. reflexivity. Qed.

Example chunker_no_advance : chunker 4 4 (lit "abcde") = None.
Proof. reflexivity. Qed.

(** ** Slices *)

Section SliceFacts.

Context {A : Type}.
Implicit Types s : list A.

Lemma len_nonneg s : 0 <= Py.len s.
Proof. unfold Py.len. lia. Qed.

Lemma slice_inside s lo hi :
  0 <= lo <= Py.len s -> 0 <= hi <= Py.len s ->
  Py.slice s lo hi = take (Z.to_nat (hi - lo)) (drop (Z.to_nat lo) s).
Proof.
  intros Hlo Hhi. unfold Py.slice, Py.adjust_index.
  destruct (Z.ltb_spec lo 0), (Z.ltb_spec hi 0); try lia.
  rewrite !Z.min_l by lia. reflexivity.
Qed.

Lemma slice_prefix s hi :
  0 <= hi -> Py.slice s 0 hi = take (Z.to_nat hi) s.
Proof.
  intros Hhi. pose proof (len_nonneg s) as Hn.
  unfold Py.slice, Py.adjust_index.
  change (0 <? 0) with false. cbv iota.
  destruct (Z.ltb_spec hi 0); [lia |].
  rewrite (Z.min_l 0) by lia. rewrite Z.sub_0_r. change (Z.to_nat 0) with 0%nat.
  rewrite drop_0.
  destruct (Z.le_gt_cases hi (Py.len s)).
  - rewrite Z.min_l by lia. reflexivity.
  - rewrite Z.min_r by lia. unfold Py.len in *. rewrite Nat2Z.id.
    rewrite !take_ge by lia. reflexivity.
Qed.

End SliceFacts.

(** ** The chunking loop *)

Section ChunkerFacts.

Context {A : Type}.
Variables (chunk_size overlap : Z) (content : list A).

Local Abbreviation step := (chunk_size - overlap).
Local Abbreviation n := (Py.len content).
Local Abbreviation loop := (chunk_loop chunk_size overlap content).
Local Abbreviation wins := (windows chunk_size overlap content).
Local Abbreviation its := (iterates chunk_size overlap content).

Lemma iterates_S k start :
  its (S k) start <-> start < n /\ its k (start + step).
Proof.
  unfold iterates. split.
  - intros [Hlt Hge]. split; [| split].
    + specialize (Hlt 0%nat). lia.
    + intros j Hj. specialize (Hlt (S j)). lia.
    + lia.
  - intros [H0 [Hlt Hge]]. split.
    + intros [| j] Hj; [lia |]. specialize (Hlt j). lia.
    + lia.
Qed.

Lemma iterates_0 start : its 0 start <-> n <= start.
Proof.
  unfold iterates. split; [lia |]. intros Hge. split; [lia | lia].
Qed.

(** With fuel for more than [k] tests, a loop that iterates [k] times
    ends, with [k] more chunks. *)
Lemma chunk_loop_run k : forall start chunks fuel,
  its k start -> (k < fuel)%nat ->
  loop fuel start chunks = Some (start + Z.of_nat k * step, chunks ++ wins k start).
Proof.
  induction k as [| k IH]; intros start chunks fuel Hit Hfuel.
  - apply iterates_0 in Hit. destruct fuel as [| fuel]; [lia |]. simpl.
    destruct (Z.ltb_spec start n); [lia |].
    rewrite app_nil_r. f_equal. f_equal. lia.
  - apply iterates_S in Hit as [Hlt Hit]. destruct fuel as [| fuel]; [lia |].
    simpl. destruct (Z.ltb_spec start n); [| lia].
    rewrite (IH _ _ fuel Hit) by lia. rewrite <- app_assoc. simpl.
    f_equal. f_equal. lia.
Qed.

(** With fuel for [k] tests or fewer it does not. *)
Lemma chunk_loop_starved fuel : forall k start chunks,
  its k start -> (fuel <= k)%nat -> loop fuel start chunks = None.
Proof.
  induction fuel as [| fuel IH]; intros k start chunks Hit Hfuel; [reflexivity |].
  destruct k as [| k]; [lia |]. apply iterates_S in Hit as [Hlt Hit].
  simpl. destruct (Z.ltb_spec start n); [| lia].
  apply (IH k); [assumption | lia].
Qed.

Lemma iterates_exists : 0 < step -> forall start, exists k, its k start.
Proof.
  intros Hstep start.
  remember (Z.to_nat (n - start)) as m eqn:Hm.
  revert start Hm. induction m as [m IH] using lt_wf_ind. intros start Hm.
  destruct (Z.le_gt_cases n start) as [Hge | Hlt].
  - exists 0%nat. by apply iterates_0.
  - destruct (IH (Z.to_nat (n - (start + step)))) with (start := start + step)
      as [k Hk]; [lia | reflexivity |].
    exists (S k). apply iterates_S. split; [lia | assumption].
Qed.

Lemma iterates_bound k start :
  0 < step -> 0 <= start -> its k start -> (k <= length content)%nat.
Proof.
  intros Hstep Hstart [Hlt _]. destruct k as [| k]; [lia |].
  specialize (Hlt k). unfold Py.len in *. nia.
Qed.

(** A cursor that does not advance never leaves the loop. *)
Lemma chunk_loop_stuck fuel : forall start chunks,
  step <= 0 -> start < n -> loop fuel start chunks = None.
Proof.
  induction fuel as [| fuel IH]; intros start chunks Hstep Hlt; [reflexivity |].
  simpl. destruct (Z.ltb_spec start n); [| lia]. apply IH; lia.
Qed.

Lemma chunker_iterates k :
  0 < step -> its k 0 -> chunker chunk_size overlap content = Some (wins k 0).
Proof.
  intros Hstep Hit. unfold chunker.
  pose proof (iterates_bound k 0 Hstep ltac:(lia) Hit) as Hk.
  rewrite (chunk_loop_run k) by (try assumption; lia). reflexivity.
Qed.

Lemma length_windows k : forall start, length (wins k start) = k.
Proof. induction k as [| k IH]; intros start; simpl; [reflexivity |]. by rewrite IH. Qed.

Lemma lookup_windows k : forall start (i : nat),
  (i < k)%nat ->
  wins k start !! i = Some (chunk_at chunk_size content (start + Z.of_nat i * step)).
Proof.
  induction k as [| k IH]; intros start i Hi; [lia |].
  destruct i as [| i]; simpl.
  - do 2 f_equal. lia.
  - rewrite IH by lia. do 2 f_equal. lia.
Qed.

Lemma chunk_at_inside start :
  0 <= chunk_size -> 0 <= start <= n ->
  chunk_at chunk_size content start
  = take (Z.to_nat (Z.min chunk_size (n - start))) (drop (Z.to_nat start) content).
Proof.
  intros Hcs Hstart. unfold chunk_at. cbv zeta.
  rewrite slice_inside by lia. do 2 f_equal. lia.
Qed.

Lemma len_chunk_at start :
  0 <= chunk_size -> 0 <= start <= n ->
  Py.len (chunk_at chunk_size content start) = Z.min chunk_size (n - start).
Proof.
  intros Hcs Hstart. rewrite chunk_at_inside by assumption.
  unfold Py.len in *. rewrite length_take, length_drop. lia.
Qed.

(** The heads of the chunks and the last chunk make up the text from
    the first cursor on. *)
Lemma non_overlapping_windows k : forall start,
  0 <= overlap -> 0 < step -> 0 <= start -> its k start ->
  non_overlapping chunk_size overlap (wins k start) = drop (Z.to_nat start) content.
Proof.
  induction k as [| k IH]; intros start Hov Hstep Hstart Hit.
  - apply iterates_0 in Hit. simpl. rewrite drop_ge; [reflexivity |].
    unfold Py.len in *. lia.
  - apply iterates_S in Hit as [Hlt Hit]. destruct k as [| k].
    + apply iterates_0 in Hit. simpl. rewrite chunk_at_inside by lia.
      apply take_ge. rewrite length_drop. unfold Py.len in *. lia.
    + pose proof Hit as Hit'. apply iterates_S in Hit' as [Hlt' _].
      change (wins (S (S k)) start)
        with (chunk_at chunk_size content start :: wins (S k) (start + step)).
      change (non_overlapping chunk_size overlap (?c :: wins (S k) ?s))
        with (Py.slice c 0 step ++ non_overlapping chunk_size overlap (wins (S k) s)).
      rewrite IH by (try assumption; lia).
      rewrite slice_prefix by lia. rewrite chunk_at_inside by lia.
      rewrite take_take. rewrite Nat.min_l by lia.
      rewrite <- (take_drop (Z.to_nat step) (drop (Z.to_nat start) content)) at 2.
      rewrite drop_drop. do 2 f_equal. lia.
Qed.

End ChunkerFacts.

(** The loop of [process_pdf] ends on every text, so [chunks_of] never
    takes its default. *)
Lemma chunker_process_pdf_total (content : str) :
  exists k, chunker CHUNK_SIZE OVERLAP content
            = Some (windows CHUNK_SIZE OVERLAP content k 0)
            /\ chunks_of content = windows CHUNK_SIZE OVERLAP content k 0.
Proof.
  destruct (iterates_exists CHUNK_SIZE OVERLAP content ltac:(by vm_compute) 0) as [k Hk].
  exists k. unfold chunks_of.
  rewrite (chunker_iterates _ _ _ k); [by split | by vm_compute | assumption].
Qed.

(** Without a positive step and with a text to cut, the loop never ends. *)
Lemma chunk_loop_diverges {A} (content : list A) (chunk_size overlap : Z) fuel :
  chunk_size - overlap <= 0 -> content <> [] ->
  chunk_loop chunk_size overlap content fuel 0 [] = None.
Proof.
  intros Hstep Hne. apply chunk_loop_stuck; [assumption |].
  destruct content; [done |]. unfold Py.len. simpl. lia.
Qed.

Lemma chunker_2600 :
  chunker 3000 500 (text_of_length 2600)
  = Some [text_of_length 2600; text_of_length 100].
Proof. vm_compute. reflexivity. Qed.

(** ** What the specification says of the chunker *)

Section ChunkerClaims.

Context {A : Type}.
Implicit Types content : list A.

(** C7: for every text and every pair of parameters with
    [chunk_size - overlap > 0] the chunking loop terminates: there is a
    number [k] of iterations such that every run with fuel for more than
    [k] tests of the condition ends (and none with less does), the cursor
    has then reached [len(T)], and it was below [len(T)] at every test
    before. *)
Theorem chunk_loop_terminates content (chunk_size overlap : Z) :
  chunk_size - overlap > 0 ->
  exists k : nat,
    (forall fuel, (k < fuel)%nat ->
       chunk_loop chunk_size overlap content fuel 0 []
       = Some (Z.of_nat k * (chunk_size - overlap),
               windows chunk_size overlap content k 0))
    /\ (forall fuel, (fuel <= k)%nat ->
          chunk_loop chunk_size overlap content fuel 0 [] = None)
    /\ Py.len content <= Z.of_nat k * (chunk_size - overlap)
    /\ (forall j, (j < k)%nat -> Z.of_nat j * (chunk_size - overlap) < Py.len content)
    /\ chunker chunk_size overlap content
       = Some (windows chunk_size overlap content k 0).
Proof.
  intros Hstep.
  destruct (iterates_exists chunk_size overlap content ltac:(lia) 0) as [k Hk].
  exists k. repeat split.
  - intros fuel Hfuel. by rewrite (chunk_loop_run _ _ _ k).
  - intros fuel Hfuel. by apply (chunk_loop_starved _ _ _ _ k).
  - destruct Hk as [_ Hk]. lia.
  - intros j Hj. destruct Hk as [Hk _]. specialize (Hk j Hj). lia.
  - apply chunker_iterates; [lia | assumption].
Qed.

(** C5: for every text and every valid pair of parameters, the first
    [chunk_size - overlap] characters of each chunk but the last,
    followed by the last chunk, are the text again. *)
Theorem non_overlapping_reconstructs content (chunk_size overlap : Z) :
  0 < overlap < chunk_size ->
  exists chunks,
    chunker chunk_size overlap content = Some chunks
    /\ non_overlapping chunk_size overlap chunks = content.
Proof.
  intros Hcfg.
  destruct (iterates_exists chunk_size overlap content ltac:(lia) 0) as [k Hk].
  exists (windows chunk_size overlap content k 0). split.
  - apply chunker_iterates; [lia | assumption].
  - rewrite non_overlapping_windows by (try assumption; lia). apply drop_0.
Qed.

(** C4: a text of 4500 characters cut with [chunk_size = 3000] and
    [overlap = 500] gives exactly two chunks, the slices [0:3000] and
    [2500:4500]; the cursor goes 0, 2500, 5000. *)
Theorem chunker_4500 content :
  Py.len content = 4500 ->
  chunk_loop 3000 500 content (S (length content)) 0 []
  = Some (5000, [Py.slice content 0 3000; Py.slice content 2500 4500])
  /\ chunker 3000 500 content
     = Some [Py.slice content 0 3000; Py.slice content 2500 4500]
  /\ start_offset 3000 500 0 = 0
  /\ start_offset 3000 500 1 = 2500.
Proof.
  intros Hlen.
  assert (Hit : iterates 3000 500 content 2 0).
  { split; [| lia]. intros j Hj. lia. }
  assert (Hloop : chunk_loop 3000 500 content (S (length content)) 0 []
                  = Some (5000, [Py.slice content 0 3000; Py.slice content 2500 4500])).
  { rewrite (chunk_loop_run _ _ _ 2) by (try assumption; unfold Py.len in Hlen; lia).
    simpl. unfold chunk_at. rewrite Hlen. reflexivity. }
  split; [exact Hloop |]. split; [| split; reflexivity].
  unfold chunker. by rewrite Hloop.
Qed.

(** C9, as the code has it: a non-empty text of at most
    [chunk_size - overlap] characters gives exactly one chunk, the whole
    text; a longer text that is still shorter than [chunk_size] gives
    the whole text as first chunk and then its tail from
    [chunk_size - overlap] on as second chunk. *)
Theorem chunker_short_text content (chunk_size overlap : Z) :
  0 <= overlap < chunk_size -> content <> [] ->
  (Py.len content <= chunk_size - overlap ->
   chunker chunk_size overlap content = Some [content])
  /\ (chunk_size - overlap < Py.len content < chunk_size ->
      exists rest,
        chunker chunk_size overlap content
        = Some (content
                  :: Py.slice content (chunk_size - overlap) (Py.len content)
                  :: rest)).
Proof.
  intros Hcfg Hne.
  assert (Hpos : 0 < Py.len content).
  { destruct content; [done |]. unfold Py.len. simpl. lia. }
  assert (Hwhole : Py.len content <= chunk_size ->
                   chunk_at chunk_size content 0 = content).
  { intros Hle. rewrite chunk_at_inside by lia. rewrite drop_0. apply take_ge.
    unfold Py.len in *. lia. }
  split.
  - intros Hlen. rewrite (chunker_iterates _ _ _ 1); [| lia |].
    + simpl. by rewrite Hwhole by lia.
    + split; [| lia]. intros j Hj. assert (j = 0%nat) as -> by lia. lia.
  - intros Hlen.
    destruct (iterates_exists chunk_size overlap content ltac:(lia) 0) as [k Hk].
    rewrite (chunker_iterates _ _ _ k) by (try assumption; lia).
    destruct k as [| [| k]].
    + apply iterates_0 in Hk. lia.
    + destruct Hk as [_ Hk]. lia.
    + eexists. simpl. rewrite Hwhole by lia. do 3 f_equal.
      unfold chunk_at. cbv zeta. f_equal; lia.
Qed.

(** C3, as the code has it: for [0 < overlap < chunk_size] the chunker
    ends with a list of chunks that covers the text; chunk [i] is the
    slice that starts at [i * (chunk_size - overlap)] and has
    [min(chunk_size, len(T) - start)] characters; chunks [i] and [i + 1]
    share [min(overlap, len(T) - start(i + 1))] characters, which is
    [overlap] exactly when chunk [i] has [chunk_size] characters. *)
Theorem chunker_overlap content (chunk_size overlap : Z) :
  0 < overlap < chunk_size ->
  exists chunks,
    chunker chunk_size overlap content = Some chunks
    /\ (forall p, 0 <= p < Py.len content ->
        exists i c, chunks !! i = Some c
          /\ start_offset chunk_size overlap i <= p
             < start_offset chunk_size overlap i + Py.len c)
    /\ (forall i c, chunks !! i = Some c ->
        c = Py.slice content (start_offset chunk_size overlap i)
              (Z.min (start_offset chunk_size overlap i + chunk_size) (Py.len content))
        /\ Py.len c
           = Z.min chunk_size (Py.len content - start_offset chunk_size overlap i)
        /\ 0 < Py.len c)
    /\ (forall i, (S i < length chunks)%nat ->
        overlap_of chunk_size overlap chunks i
        = Z.min overlap (Py.len content - start_offset chunk_size overlap (S i))
        /\ 0 < overlap_of chunk_size overlap chunks i <= overlap
        /\ (overlap_of chunk_size overlap chunks i = overlap
            <-> Py.len (chunks !!! i) = chunk_size)).
Proof.
  intros Hcfg.
  destruct (iterates_exists chunk_size overlap content ltac:(lia) 0) as [k Hk].
  exists (windows chunk_size overlap content k 0).
  assert (Hat : forall i : nat, (i < k)%nat ->
            start_offset chunk_size overlap i < Py.len content
            /\ windows chunk_size overlap content k 0 !! i
               = Some (chunk_at chunk_size content (start_offset chunk_size overlap i))
            /\ Py.len (chunk_at chunk_size content (start_offset chunk_size overlap i))
               = Z.min chunk_size (Py.len content - start_offset chunk_size overlap i)).
  { intros i Hi. unfold start_offset. destruct Hk as [Hlt _].
    specialize (Hlt i Hi). split; [lia |]. split.
    - rewrite lookup_windows by assumption. do 2 f_equal; lia.
    - apply len_chunk_at; nia. }
  split; [apply chunker_iterates; [lia | assumption] |]. split; [| split].
  - intros p Hp. set (step := chunk_size - overlap) in *.
    assert (Hi : (Z.to_nat (p / step) < k)%nat).
    { destruct Hk as [_ Hge]. apply Nat2Z.inj_lt.
      rewrite Z2Nat.id by (apply Z.div_pos; lia).
      apply Z.div_lt_upper_bound; lia. }
    destruct (Hat _ Hi) as (Hlt & Hlook & Hlen).
    exists (Z.to_nat (p / step)),
      (chunk_at chunk_size content (start_offset chunk_size overlap (Z.to_nat (p / step)))).
    split; [exact Hlook |]. rewrite Hlen. unfold start_offset in *.
    fold step in Hlt |- *.
    rewrite Z2Nat.id in * by (apply Z.div_pos; lia).
    pose proof (Z.mul_div_le p step ltac:(lia)).
    pose proof (Z.mul_succ_div_gt p step ltac:(lia)). lia.
  - intros i c Hlook.
    assert (Hi : (i < k)%nat).
    { apply lookup_lt_Some in Hlook. by rewrite length_windows in Hlook. }
    destruct (Hat _ Hi) as (Hlt & Hlook' & Hlen).
    rewrite Hlook' in Hlook. injection Hlook as <-.
    split; [reflexivity |]. split; [exact Hlen | lia].
  - intros i Hi. rewrite length_windows in Hi.
    destruct (Hat i ltac:(lia)) as (Hlt & Hlook & Hlen).
    destruct (Hat (S i) Hi) as (Hlt' & _ & _).
    unfold overlap_of, end_offset.
    rewrite (list_lookup_total_correct _ _ _ Hlook). rewrite Hlen.
    unfold start_offset in *. lia.
Qed.

End ChunkerClaims.

Lemma chunk_loop_terminates_witness :
  4 - 2 > 0
  /\ exists k : nat,
       chunker 4 2 (lit "abcde") = Some (windows 4 2 (lit "abcde") k 0)
       /\ Py.len (lit "abcde") <= Z.of_nat k * (4 - 2).
Proof.
  split; [lia |].
  destruct (chunk_loop_terminates (lit "abcde") 4 2 ltac:(lia))
    as (k & _ & _ & Hge & _ & Hrun).
  exists k. split; assumption.
Defined.

Lemma non_overlapping_reconstructs_witness :
  0 < 2 < 4
  /\ exists chunks,
       chunker 4 2 (lit "abcde") = Some chunks
       /\ non_overlapping 4 2 chunks = lit "abcde".
Proof.
  split; [lia |]. apply (non_overlapping_reconstructs (lit "abcde") 4 2). lia.
Defined.

Lemma chunker_4500_witness :
  Py.len (text_of_length 4500) = 4500
  /\ chunker 3000 500 (text_of_length 4500)
     = Some [Py.slice (text_of_length 4500) 0 3000;
             Py.slice (text_of_length 4500) 2500 4500].
Proof.
  split; [vm_compute; reflexivity |].
  apply (chunker_4500 (text_of_length 4500)). vm_compute. reflexivity.
Defined.

Lemma chunker_short_text_witness :
  0 <= 500 < 3000 /\ text_of_length 2500 <> []
  /\ chunker 3000 500 (text_of_length 2500) = Some [text_of_length 2500].
Proof.
  assert (Hne : text_of_length 2500 <> []) by (vm_compute; discriminate).
  split; [lia |]. split; [exact Hne |].
  apply (chunker_short_text (text_of_length 2500) 3000 500 ltac:(lia) Hne).
  vm_compute. discriminate.
Defined.

Lemma chunker_overlap_witness :
  0 < 500 < 3000
  /\ exists chunks,
       chunker 3000 500 (text_of_length 2600) = Some chunks
       /\ (forall i, (S i < length chunks)%nat ->
           overlap_of 3000 500 chunks i
           = Z.min 500 (Py.len (text_of_length 2600) - start_offset 3000 500 (S i))).
Proof.
  split; [lia |].
  destruct (chunker_overlap (text_of_length 2600) 3000 500 ltac:(lia))
    as (chunks & Hrun & _ & _ & Hov).
  exists chunks. split; [exact Hrun |]. intros i Hi. apply (Hov i Hi).
Defined.

(** C9 as the specification states it fails on a text of 2600
    characters: it is shorter than [chunk_size] and the loop cuts two
    chunks. *)
Lemma short_text_not_one_chunk :
  ~ (forall content : str,
       content <> [] -> Py.len content < CHUNK_SIZE ->
       chunker CHUNK_SIZE OVERLAP content = Some [content]).
Proof.
  intros Hclaim. specialize (Hclaim (text_of_length 2600)).
  unfold CHUNK_SIZE, OVERLAP in Hclaim. rewrite chunker_2600 in Hclaim.
  assert (Hne : text_of_length 2600 <> []) by (vm_compute; discriminate).
  specialize (Hclaim Hne ltac:(vm_compute; reflexivity)). discriminate.
Qed.

(** C3 as the specification states it fails on the same text: its two
    chunks share 100 characters, not 500, and the first, which is not
    the final one, has fewer than [chunk_size] characters.  Leaving the
    pairs with the final chunk aside does not save the statement for
    every pair of parameters: with [chunk_size = 4] and [overlap = 3]
    the third and the fourth of the five chunks of a text of five
    characters share two. *)
Lemma overlap_not_exact :
  ~ (forall (content : str) (chunk_size overlap : Z),
       0 < overlap < chunk_size ->
       exists chunks,
         chunker chunk_size overlap content = Some chunks
         /\ forall i, (S i < length chunks)%nat ->
              overlap_of chunk_size overlap chunks i = overlap)
  /\ ~ (forall (content : str) (chunk_size overlap : Z),
          0 < overlap < chunk_size ->
          exists chunks,
            chunker chunk_size overlap content = Some chunks
            /\ forall i, (S i < length chunks)%nat ->
                 Py.len (chunks !!! i) = chunk_size)
  /\ ~ (forall (content : str) (chunk_size overlap : Z),
          0 < overlap < chunk_size ->
          exists chunks,
            chunker chunk_size overlap content = Some chunks
            /\ forall i, (S (S i) < length chunks)%nat ->
                 overlap_of chunk_size overlap chunks i = overlap).
Proof.
  split; [| split]; intros Hclaim.
  - destruct (Hclaim (text_of_length 2600) 3000 500 ltac:(lia))
      as (chunks & Hrun & Hov).
    rewrite chunker_2600 in Hrun. injection Hrun as <-.
    specialize (Hov 0%nat ltac:(simpl; lia)). vm_compute in Hov. discriminate.
  - destruct (Hclaim (text_of_length 2600) 3000 500 ltac:(lia))
      as (chunks & Hrun & Hlen).
    rewrite chunker_2600 in Hrun. injection Hrun as <-.
    specialize (Hlen 0%nat ltac:(simpl; lia)). vm_compute in Hlen. discriminate.
  - destruct (Hclaim (lit "abcde") 4 3 ltac:(lia)) as (chunks & Hrun & Hov).
    vm_compute in Hrun. injection Hrun as <-.
    specialize (Hov 2%nat ltac:(simpl; lia)). vm_compute in Hov. discriminate.
Qed.

(** ** Running the monad *)

#[local] Opaque lit VALON_ARCHIVE log_path.

(** Unfolds the combinators of [M] at the head of a run. *)
Ltac exec :=
  repeat (unfold bind, ret, raise, ask, service, print, path_exists, read_json,
            write_json, try_except, py_append, py_getitem, py_get, py_len;
          simpl).

Module DictFacts.

Lemma get_set_eq k v d : Dict.get k (Dict.set k v d) = Some v.
Proof.
  induction d as [| [k' v'] d IH]; simpl.
  - by rewrite bool_decide_eq_true_2.
  - case_bool_decide as Hk; simpl.
    + by rewrite bool_decide_eq_true_2.
    + by rewrite bool_decide_eq_false_2.
Qed.

Lemma get_set_ne k k' v d :
  k <> k' -> Dict.get k' (Dict.set k v d) = Dict.get k' d.
Proof.
  intros Hne. induction d as [| [k0 v0] d IH]; simpl.
  - by rewrite bool_decide_eq_false_2.
  - case_bool_decide as Hk; simpl.
    + subst k0. by rewrite !bool_decide_eq_false_2.
    + by rewrite IH.
Qed.

End DictFacts.

#[local] Opaque Dict.get Dict.set.

Section MonadFacts.

Context `{Services}.

Lemma readonly_ret {A} (a : A) : readonly (ret a).
Proof. intros s. simpl. repeat split. exists []. by rewrite app_nil_r. Qed.

Lemma readonly_raise {A} e : readonly (raise (A := A) e).
Proof. intros s. simpl. repeat split. exists []. by rewrite app_nil_r. Qed.

Lemma readonly_print line : readonly (print line).
Proof. intros s. simpl. repeat split. by exists [line]. Qed.

Lemma readonly_read_json path : readonly (read_json path).
Proof.
  intros s. unfold read_json.
  destruct (files s !! path) as [[j | |] |]; simpl; repeat split;
    exists []; by rewrite app_nil_r.
Qed.

Lemma readonly_bind {A B} (m : M A) (k : A -> M B) :
  readonly m -> (forall a, readonly (k a)) -> readonly (bind m k).
Proof.
  intros Hm Hk s. unfold bind. specialize (Hm s).
  destruct (m s) as [[a | e] s1]; simpl in *.
  - destruct Hm as (Hf & Hw & Hc & out & Hout).
    destruct (Hk a s1) as (Hf' & Hw' & Hc' & out' & Hout').
    rewrite Hf', Hw', Hc', Hout', Hf, Hw, Hc, Hout. repeat split.
    exists (out ++ out'). by rewrite app_assoc.
  - exact Hm.
Qed.

Lemma readonly_try_except {A} (body : M A) handler :
  readonly body -> (forall e, readonly (handler e)) ->
  readonly (try_except body handler).
Proof.
  intros Hm Hk s. unfold try_except. specialize (Hm s).
  destruct (body s) as [[a | e] s1]; simpl in *.
  - exact Hm.
  - destruct Hm as (Hf & Hw & Hc & out & Hout).
    destruct (Hk e s1) as (Hf' & Hw' & Hc' & out' & Hout').
    rewrite Hf', Hw', Hc', Hout', Hf, Hw, Hc, Hout. repeat split.
    exists (out ++ out'). by rewrite app_assoc.
Qed.

Lemma readonly_py_get v key dflt : readonly (py_get v key dflt).
Proof. destruct v; first [apply readonly_ret | apply readonly_raise]. Qed.

Lemma readonly_py_len v : readonly (py_len v).
Proof. destruct v; first [apply readonly_ret | apply readonly_raise]. Qed.

Lemma returns_ret {A} (P : A -> Prop) a : P a -> returns P (ret a).
Proof. intros HP s a' s' Heq. injection Heq as <- _. exact HP. Qed.

Lemma returns_bind {A B} (P : B -> Prop) (m : M A) (k : A -> M B) :
  (forall a, returns P (k a)) -> returns P (bind m k).
Proof.
  intros Hk s b s' Heq. unfold bind in Heq.
  destruct (m s) as [[a | e] s1]; [| discriminate]. by apply (Hk a s1 b s').
Qed.

End MonadFacts.

Ltac readonly_steps :=
  repeat first
    [ apply readonly_ret | apply readonly_raise | apply readonly_print
    | apply readonly_read_json | apply readonly_py_get | apply readonly_py_len
    | apply readonly_bind; [| intros ?] ].

(** ** The archive *)

Lemma dict_set_keys k v x d :
  Dict.get k d = Some x -> (Dict.set k v d).*1 = d.*1.
Proof.
  with_strategy transparent [Dict.get Dict.set]
    (induction d as [| [k' v'] d IH]; simpl; [discriminate |];
     case_bool_decide as Hk; simpl; [by subst k' | intros Hget; f_equal; by apply IH]).
Qed.

Section ArchiveFacts.

Context `{Services}.

Lemma sequence_of_set_eq d l :
  sequence_of (lit "symbolic_events")
    (JObj (Dict.set (lit "symbolic_events") (JArr l) d))
  = Some l.
Proof. unfold sequence_of. by rewrite DictFacts.get_set_eq. Qed.

Lemma sequence_of_set_ne key d v :
  key <> lit "symbolic_events" ->
  sequence_of key (JObj (Dict.set (lit "symbolic_events") v d))
  = sequence_of key (JObj d).
Proof. intros Hne. unfold sequence_of. by rewrite DictFacts.get_set_ne. Qed.

Lemma valid_archive_sequences archive :
  valid_archive archive = true <->
  forall key, key ∈ archive_keys -> is_Some (sequence_of key archive).
Proof.
  unfold valid_archive. rewrite forallb_forall. split.
  - intros Hall key Hkey. apply list_elem_of_In in Hkey.
    specialize (Hall key Hkey). by apply bool_decide_eq_true_1 in Hall.
  - intros Hall key Hkey. apply bool_decide_eq_true_2, Hall. by apply list_elem_of_In.
Qed.

Lemma archive_keys_distinct key :
  key ∈ archive_keys ->
  key = lit "symbolic_events" \/ key <> lit "symbolic_events".
Proof.
  unfold archive_keys. rewrite !elem_of_cons, elem_of_nil.
  intros [-> | [-> | [-> | [-> | []]]]]; [by left | right ..]; by vm_compute.
Qed.

Lemma valid_archive_events prior :
  valid_archive prior = true ->
  exists d old,
    prior = JObj d /\ Dict.get (lit "symbolic_events") d = Some (JArr old).
Proof.
  intros Hvalid.
  pose proof (proj1 (valid_archive_sequences prior) Hvalid) as Hseqs.
  destruct (Hseqs (lit "symbolic_events")) as [old Hold];
    [unfold archive_keys; set_solver |].
  destruct prior as [| | | | | | d]; try discriminate.
  exists d, old. split; [reflexivity |].
  unfold sequence_of in Hold.
  destruct (Dict.get (lit "symbolic_events") d) as [[| | | | | l |] |];
    try discriminate.
  by injection Hold as ->.
Qed.

Lemma valid_archive_set d l :
  valid_archive (JObj d) = true ->
  valid_archive (JObj (Dict.set (lit "symbolic_events") (JArr l) d)) = true.
Proof.
  rewrite !valid_archive_sequences. intros Hseqs key Hkey.
  destruct (archive_keys_distinct key Hkey) as [-> | Hne].
  - rewrite sequence_of_set_eq. by eexists.
  - rewrite sequence_of_set_ne by assumption. by apply Hseqs.
Qed.

(** The run of [update_valon_archive] on an archive that has its list
    of events. *)
Lemma update_valon_archive_run s filename reflection d old :
  prior_archive (files s) = Some (JObj d) ->
  Dict.get (lit "symbolic_events") d = Some (JArr old) ->
  update_valon_archive filename reflection s
  = (Ok tt,
     {| world := (now_isoformat (world s)).2;
        files := <[VALON_ARCHIVE :=
                     JsonFile (JObj (Dict.set (lit "symbolic_events")
                       (JArr (old ++ [symbolic_event filename reflection
                                        (now_isoformat (world s)).1])) d))]> (files s);
        stdout := stdout s ++ [lit "[INFO] Updated VALON archive with " ++ filename];
        calls := calls s |}).
Proof.
  intros Hprior Hget. unfold prior_archive in Hprior.
  unfold update_valon_archive.
  destruct (files s !! VALON_ARCHIVE) as [[j | |] |] eqn:Hfile; try discriminate.
  - injection Hprior as ->. exec. rewrite Hfile. exec. rewrite Hfile. exec.
    rewrite Hget. exec. reflexivity.
  - unfold empty_archive in Hprior. injection Hprior as <-.
    exec. rewrite Hfile. exec. unfold empty_archive. exec. rewrite Hget. exec.
    reflexivity.
Qed.

(** A file that is there without the list of events makes the update
    raise: such a file is no archive. *)
Lemma update_valon_archive_no_events s filename reflection d :
  files s !! VALON_ARCHIVE = Some (JsonFile (JObj d)) ->
  Dict.get (lit "symbolic_events") d = None ->
  update_valon_archive filename reflection s
  = (Raise (KeyError (lit "symbolic_events")), s).
Proof.
  intros Hfile Hget. unfold update_valon_archive. exec. rewrite Hfile. exec.
  rewrite Hfile. exec. rewrite Hget. reflexivity.
Qed.

Lemma archive_events_some fs old :
  archive_events fs = Some old ->
  exists d, prior_archive fs = Some (JObj d)
            /\ Dict.get (lit "symbolic_events") d = Some (JArr old).
Proof.
  unfold archive_events. destruct (prior_archive fs) as [prior |]; [| discriminate].
  simpl. unfold sequence_of. destruct prior as [| | | | | | d]; try discriminate.
  destruct (Dict.get (lit "symbolic_events") d) as [[| | | | | l |] |] eqn:Hget;
    try discriminate.
  intros [= <-]. by exists d.
Qed.

(** The run of the update in terms of the events it finds. *)
Lemma update_valon_archive_events s filename reflection old :
  archive_events (files s) = Some old ->
  exists s',
    update_valon_archive filename reflection s = (Ok tt, s')
    /\ archive_events (files s')
       = Some (old ++ [symbolic_event filename reflection (now_isoformat (world s)).1])
    /\ (forall path, path <> VALON_ARCHIVE -> files s' !! path = files s !! path)
    /\ world s' = (now_isoformat (world s)).2
    /\ calls s' = calls s
    /\ stdout s' = stdout s ++ [lit "[INFO] Updated VALON archive with " ++ filename].
Proof.
  intros Hevents. destruct (archive_events_some _ _ Hevents) as (d & Hprior & Hget).
  rewrite (update_valon_archive_run _ _ _ _ _ Hprior Hget). eexists.
  split; [reflexivity |]. simpl.
  split; [| split; [intros path Hne; by rewrite lookup_insert_ne | by repeat split]].
  unfold archive_events, prior_archive. rewrite lookup_insert_eq. simpl.
  apply sequence_of_set_eq.
Qed.

(** Without the list of events the update raises where it stands. *)
Lemma update_valon_archive_rejects s filename reflection :
  archive_events (files s) = None ->
  exists e, update_valon_archive filename reflection s = (Raise e, s).
Proof.
  intros Hevents. unfold archive_events, prior_archive in Hevents.
  unfold update_valon_archive. exec.
  destruct (files s !! VALON_ARCHIVE) as [[j | |] |] eqn:Hfile;
    exec; rewrite ?Hfile; exec; [| by eexists | by eexists | by vm_compute in Hevents].
  simpl in Hevents. unfold sequence_of in Hevents.
  destruct j; exec; try by eexists.
  destruct (Dict.get (lit "symbolic_events") fields) as [[| | | | | l |] |];
    try discriminate; exec; by eexists.
Qed.

(** C6 (corrected): [update_valon_archive] keeps an archive valid, it
    does not make one valid.  From a prior archive that is valid (the
    four empty sequences when there is no file, or a file whose
    document holds all four sequences) it ends without an exception and
    leaves a valid archive in the file: all four named sequences are
    there, and [symbolic_events] is the prior one followed by the record
    [{source: filename, reflected: reflection, timestamp: now}]; when
    there was no file, the document written is the four sequences with
    that one record and nothing else.  From a file whose document has
    its list of events but is not valid, it ends as well, and the
    document it writes has the same keys and is still not valid.  From
    a file without a list of events, or one that is not JSON, it raises
    and leaves the state as it was. *)
Theorem update_valon_archive_valid s filename reflection :
  (forall prior,
      prior_archive (files s) = Some prior ->
      valid_archive prior = true ->
      exists s' archive' old,
        update_valon_archive filename reflection s = (Ok tt, s')
        /\ files s' !! VALON_ARCHIVE = Some (JsonFile archive')
        /\ valid_archive archive' = true
        /\ (forall key, key ∈ archive_keys -> is_Some (sequence_of key archive'))
        /\ sequence_of (lit "symbolic_events") prior = Some old
        /\ sequence_of (lit "symbolic_events") archive'
           = Some (old ++ [JObj [(lit "source", JStr filename);
                                 (lit "reflected", reflection);
                                 (lit "timestamp", JStr (now_isoformat (world s)).1)]])
        /\ (files s !! VALON_ARCHIVE = None ->
            archive'
            = JObj [(lit "symbolic_events",
                     JArr [JObj [(lit "source", JStr filename);
                                 (lit "reflected", reflection);
                                 (lit "timestamp", JStr (now_isoformat (world s)).1)]]);
                    (lit "drift_logs", JArr []);
                    (lit "reasoning_blends", JArr []);
                    (lit "dream_logs", JArr [])]))
  /\ (forall d old,
        files s !! VALON_ARCHIVE = Some (JsonFile (JObj d)) ->
        Dict.get (lit "symbolic_events") d = Some (JArr old) ->
        valid_archive (JObj d) = false ->
        exists s' d',
          update_valon_archive filename reflection s = (Ok tt, s')
          /\ files s' !! VALON_ARCHIVE = Some (JsonFile (JObj d'))
          /\ d'.*1 = d.*1
          /\ sequence_of (lit "symbolic_events") (JObj d')
             = Some (old ++ [JObj [(lit "source", JStr filename);
                                   (lit "reflected", reflection);
                                   (lit "timestamp", JStr (now_isoformat (world s)).1)]])
          /\ valid_archive (JObj d') = false)
  /\ (archive_events (files s) = None ->
      exists e, update_valon_archive filename reflection s = (Raise e, s)).
Proof.
  split; [| split].
  - intros prior Hprior Hvalid.
    destruct (valid_archive_events prior Hvalid) as (d & old & -> & Hget).
    eexists _, _, old.
    split; [apply (update_valon_archive_run _ _ _ d old); assumption |].
    simpl. rewrite lookup_insert_eq.
    split; [reflexivity |]. split; [by apply valid_archive_set |].
    split; [by apply valid_archive_sequences, valid_archive_set |].
    split; [unfold sequence_of; by rewrite Hget |].
    split; [apply sequence_of_set_eq |].
    intros Habsent. unfold prior_archive in Hprior. rewrite Habsent in Hprior.
    injection Hprior as <-. vm_compute in Hget. injection Hget as <-.
    with_strategy transparent [Dict.set lit] (vm_compute; reflexivity).
  - intros d old Hfile Hget Hinvalid.
    assert (Hprior : prior_archive (files s) = Some (JObj d))
      by (unfold prior_archive; by rewrite Hfile).
    rewrite (update_valon_archive_run _ _ _ _ _ Hprior Hget). eexists _, _.
    split; [reflexivity |]. simpl. split; [by rewrite lookup_insert_eq |].
    split; [by apply (dict_set_keys _ _ (JArr old)) |].
    split; [apply sequence_of_set_eq |].
    etrans; [| exact Hinvalid]. unfold valid_archive, archive_keys, sequence_of. simpl.
    rewrite DictFacts.get_set_eq, Hget.
    rewrite !DictFacts.get_set_ne by (by vm_compute). reflexivity.
  - apply update_valon_archive_rejects.
Qed.


End ArchiveFacts.

(** ** The comparator *)

Section ComparatorFacts.

Context `{Services}.

Lemma readonly_compare_results_try original_file gemini_file :
  readonly (compare_results_try original_file gemini_file).
Proof. unfold compare_results_try. readonly_steps. Qed.

Lemma returns_compare_results_try original_file gemini_file :
  returns (fun b => b = true) (compare_results_try original_file gemini_file).
Proof.
  unfold compare_results_try.
  repeat (apply returns_bind; intros ?). by apply returns_ret.
Qed.

Lemma compare_results_try_original s original_file gemini_file e :
  read_error (files s) original_file = Some e ->
  compare_results_try original_file gemini_file s = (Raise e, s).
Proof.
  unfold read_error, compare_results_try. intros Herr. exec.
  destruct (files s !! original_file) as [[j | |] |]; try discriminate;
    by injection Herr as <-.
Qed.

Lemma compare_results_try_gemini s original_file gemini_file e :
  read_error (files s) original_file = None ->
  read_error (files s) gemini_file = Some e ->
  compare_results_try original_file gemini_file s = (Raise e, s).
Proof.
  unfold read_error, compare_results_try. intros Hok Herr. exec.
  destruct (files s !! original_file) as [[j | |] |]; try discriminate.
  destruct (files s !! gemini_file) as [[j' | |] |]; try discriminate;
    by injection Herr as <-.
Qed.

(** C8: for every pair of paths and every state of the disk,
    [compare_results] returns (no exception leaves it) and leaves the
    files, the world and the call record as they were; when one of the
    two files is missing or cannot be read or parsed it prints the one
    line [[ERROR] Failed to compare results: ...] and returns [False];
    it returns [False] only after such a line. *)
Theorem compare_results_reports s original_file gemini_file :
  exists b s',
    compare_results original_file gemini_file s = (Ok b, s')
    /\ files s' = files s /\ world s' = world s /\ calls s' = calls s
    /\ (forall e, read_error (files s) original_file = Some e ->
        b = false
        /\ stdout s'
           = stdout s ++ [lit "[ERROR] Failed to compare results: " ++ exn_str e])
    /\ (forall e, read_error (files s) original_file = None ->
        read_error (files s) gemini_file = Some e ->
        b = false
        /\ stdout s'
           = stdout s ++ [lit "[ERROR] Failed to compare results: " ++ exn_str e])
    /\ (b = false ->
        exists e out,
          stdout s'
          = stdout s ++ out ++ [lit "[ERROR] Failed to compare results: " ++ exn_str e]).
Proof.
  pose proof (readonly_compare_results_try original_file gemini_file s) as Hro.
  pose proof (returns_compare_results_try original_file gemini_file s) as Hret.
  pose proof (compare_results_try_original s original_file gemini_file) as Horig.
  pose proof (compare_results_try_gemini s original_file gemini_file) as Hgem.
  unfold compare_results, try_except.
  destruct (compare_results_try original_file gemini_file s) as [[b | e] s1] eqn:Hbody;
    simpl in Hro; destruct Hro as (Hf & Hw & Hc & out & Hout).
  - exists b, s1. rewrite (Hret b s1 eq_refl).
    split; [reflexivity |]. split; [exact Hf |]. split; [exact Hw |]. split; [exact Hc |].
    split; [intros e He; by specialize (Horig e He) |].
    split; [intros e Hok He; by specialize (Hgem e Hok He) |]. discriminate.
  - eexists false, _. exec. split; [reflexivity |]. simpl.
    split; [exact Hf |]. split; [exact Hw |]. split; [exact Hc |].
    split; [| split].
    + intros e' He'. specialize (Horig e' He'). injection Horig as <- <-. done.
    + intros e' Hok He'. specialize (Hgem e' Hok He'). injection Hgem as <- <-. done.
    + intros _. exists e, out. rewrite Hout. by rewrite <- app_assoc.
Qed.

(** [main] does not even call the comparator when a file is absent:
    it prints its own line. *)
Lemma main_compare_missing s compare :
  files s !! compare = None
  \/ files s !! PyStr.replace (lit "_gemini.json") (lit ".json") compare = None ->
  main_compare compare s
  = (Ok tt,
     {| world := world s; files := files s;
        stdout := stdout s ++
          [lit "[ERROR] Cannot compare - missing files: "
             ++ PyStr.replace (lit "_gemini.json") (lit ".json") compare
             ++ lit " or " ++ compare];
        calls := calls s |}).
Proof.
  intros Hmiss. unfold main_compare. exec.
  destruct Hmiss as [-> | ->]; simpl; [| reflexivity].
  by rewrite andb_false_r.
Qed.

(** *** The archived script *)

Lemma readonly_py_replace v old new : readonly (py_replace v old new).
Proof. destruct v; first [apply readonly_ret | apply readonly_raise]. Qed.

Lemma readonly_py_head_plus v k suffix : readonly (py_head_plus v k suffix).
Proof. destruct v; first [apply readonly_ret | apply readonly_raise]. Qed.

Lemma readonly_find_matching source_name mistral_files :
  readonly (find_matching source_name mistral_files).
Proof.
  induction mistral_files as [| f rest IH]; simpl; [apply readonly_ret |].
  apply readonly_bind; [apply readonly_py_replace |]. intros stem.
  destruct (Py.contains stem f); [apply readonly_ret | exact IH].
Qed.

Lemma readonly_compare_record mistral_files gemini_result :
  readonly (compare_record mistral_files gemini_result).
Proof.
  unfold compare_record. destruct gemini_result; try apply readonly_ret.
  apply readonly_bind; [apply readonly_py_get |]. intros source_name.
  apply readonly_bind; [apply readonly_print |]. intros _.
  apply readonly_bind; [apply readonly_find_matching |]. intros [[| c f] |];
    try apply readonly_print.
  apply readonly_try_except; [| intros e; apply readonly_print].
  unfold compare_record_try.
  repeat first
    [ apply readonly_print | apply readonly_read_json | apply readonly_py_get
    | apply readonly_py_len | apply readonly_py_head_plus
    | apply readonly_bind; [| intros ?] ].
Qed.

(** The search raises nothing when the source name is a string. *)
Lemma find_matching_str s name mistral_files :
  exists r,
    find_matching (JStr name) mistral_files s = (Ok r, s)
    /\ (r = None <->
        forall f, f ∈ mistral_files ->
          Py.contains (PyStr.replace (lit ".pdf") [] name) f = false).
Proof.
  induction mistral_files as [| f rest IH]; simpl.
  - exists None. split; [reflexivity |]. split; [| done].
    intros _ f Hf. by apply elem_of_nil in Hf.
  - exec. destruct (Py.contains (PyStr.replace (lit ".pdf") [] name) f) eqn:Hf.
    + exists (Some f). split; [reflexivity |]. split; [discriminate |].
      intros Hall. specialize (Hall f ltac:(left)). congruence.
    + destruct IH as (r & Hrun & Hnone). exists r. split; [exact Hrun |].
      rewrite Hnone. split.
      * intros Hall f' Hf'. apply elem_of_cons in Hf' as [-> | Hf']; [exact Hf | by apply Hall].
      * intros Hall f' Hf'. apply Hall. by right.
Qed.

(** One record of the archived script's loop: with a string for source
    name (or none) the iteration ends without an exception and only
    prints; when no file matches, the line it prints last says so. *)
Lemma compare_record_reports s mistral_files d name :
  default (JStr (lit "unknown")) (Dict.get (lit "source") d) = JStr name ->
  exists s',
    compare_record mistral_files (JObj d) s = (Ok tt, s')
    /\ files s' = files s /\ world s' = world s /\ calls s' = calls s
    /\ ((forall f, f ∈ mistral_files ->
           Py.contains (PyStr.replace (lit ".pdf") [] name) f = false) ->
        stdout s'
        = stdout s ++ [nl ++ lit "--- Comparing " ++ name ++ lit " ---";
                       cross_mark ++ lit " No matching Mistral file found for " ++ name]).
Proof.
  intros Hname.
  pose proof (readonly_compare_record mistral_files (JObj d) s) as Hro.
  unfold compare_record in *. revert Hro. exec. rewrite Hname.
  match goal with
  | |- context [find_matching _ _ ?s1] =>
      destruct (find_matching_str s1 name mistral_files) as (r & -> & Hnone)
  end.
  destruct r as [[| c f] |].
  - intros (Hf & Hw & Hc & _). eexists. split; [reflexivity |].
    split; [exact Hf |]. split; [exact Hw |]. split; [exact Hc |].
    intros Hall. apply Hnone in Hall. discriminate.
  - match goal with
    | |- context [compare_record_try ?r ?f ?s1] =>
        destruct (compare_record_try r f s1) as [[[] | e] s2]
    end;
      intros (Hf & Hw & Hc & _); eexists; (split; [reflexivity |]);
      (split; [exact Hf |]); (split; [exact Hw |]); (split; [exact Hc |]);
      intros Hall; apply Hnone in Hall; discriminate.
  - intros (Hf & Hw & Hc & _). eexists. split; [reflexivity |].
    split; [exact Hf |]. split; [exact Hw |]. split; [exact Hc |].
    intros _. simpl. by rewrite <- app_assoc.
Qed.

End ComparatorFacts.

(** ** The pipeline of [process_pdf] *)

Section PipelineFacts.

Context `{Services}.

(** C1, as the code has it: the response of the primary provider counts
    as an error exactly when it contains [Error:] or [timed out]; then
    it is dropped, the secondary provider is called with the prompt made
    from the same chunk, and its answer is used, stripped, also when it
    is an error string itself; any other response, one that starts with
    [[ERROR:] among them, is kept and the secondary provider is not
    called. *)
Theorem summarize_chunk_fallback s i total chunk :
  let response := (analyze_document_chunk chunk i total (world s)).1 in
  let w := (analyze_document_chunk chunk i total (world s)).2 in
  let secondary :=
    match (openai_chat (fallback_prompt chunk) w).1 with
    | inr content => content
    | inl e => lit "Error: " ++ exn_str e
    end in
  (is_error_response response = true <->
   Py.contains (lit "Error:") response = true
   \/ Py.contains (lit "timed out") response = true)
  /\ (is_error_response response = true ->
      exists s',
        summarize_chunk i total chunk s = (Ok (summary_block i secondary), s')
        /\ calls s' = calls s ++ [CallAnalyze chunk i total;
                                  CallChatGPT (fallback_prompt chunk)])
  /\ (is_error_response response = false ->
      exists s',
        summarize_chunk i total chunk s = (Ok (summary_block i response), s')
        /\ calls s' = calls s ++ [CallAnalyze chunk i total]).
Proof.
  intros response w secondary. split; [| split].
  - unfold is_error_response. apply orb_true_iff.
  - intros Herr. unfold summarize_chunk. exec. fold response. rewrite Herr.
    unfold query_chatgpt. exec. fold w. subst secondary.
    destruct (openai_chat (fallback_prompt chunk) w).1 as [e | content];
      exec; eexists; (split; [reflexivity |]); simpl; by rewrite <- app_assoc.
  - intros Hok. unfold summarize_chunk. exec. fold response. rewrite Hok.
    exec. eexists. split; reflexivity.
Qed.

Lemma summarize_chunk_returns s i total chunk :
  exists s' block,
    summarize_chunk i total chunk s = (Ok block, s') /\ files s' = files s.
Proof.
  unfold summarize_chunk, query_chatgpt. exec.
  destruct (is_error_response _); exec;
    [destruct (openai_chat _ _).1; exec |]; eexists _, _; split; reflexivity.
Qed.

(** One block per chunk, and no exception. *)
Lemma summarize_loop_blocks chunks : forall s i total summaries,
  exists s' blocks,
    summarize_loop i total chunks summaries s = (Ok (summaries ++ blocks), s')
    /\ length blocks = length chunks
    /\ files s' = files s.
Proof.
  induction chunks as [| chunk rest IH]; intros s i total summaries.
  - exists s, []. simpl. unfold ret. by rewrite app_nil_r.
  - simpl. unfold bind at 1.
    destruct (summarize_chunk_returns s i total chunk) as (s1 & block & -> & Hfiles).
    destruct (IH s1 (i + 1) total (summaries ++ [block]))
      as (s' & blocks & -> & Hlen & Hfiles').
    exists s', (block :: blocks). rewrite <- app_assoc. simpl.
    split; [reflexivity |]. split; [by rewrite Hlen | congruence].
Qed.

(** C2, as the code has it: the chunking loop cuts no chunk from an
    empty text, but [process_pdf] does not come to it; on a document
    whose extracted text is empty it stops at [if not content:], appends
    an entry to the error log and returns [False]; no provider is
    called and no other file is written. *)
Theorem process_pdf_empty_text s filepath filename link pages logs :
  (pdf_page_texts filepath (world s)).1 = inr pages ->
  page_blocks 0 pages = [] ->
  prior_error_log (files s) = Some logs ->
  exists s' timestamp,
    chunker CHUNK_SIZE OVERLAP (page_blocks 0 pages) = Some []
    /\ process_pdf filepath filename link s = (Ok false, s')
    /\ calls s' = calls s
    /\ files s'
       = <[log_path := JsonFile (JArr (logs ++
            [error_entry (lit "Failed to extract text") filename timestamp]))]> (files s)
    /\ (forall path, path <> log_path -> files s' !! path = files s !! path)
    /\ last (stdout s') = Some (lit "[ERROR] Failed to extract text for " ++ filename).
Proof.
  intros Hpages Hblocks Hlog. rewrite Hblocks.
  unfold process_pdf, extract_text_from_pdf. exec. rewrite Hpages. exec.
  rewrite Hblocks. unfold log_error. exec.
  unfold prior_error_log in Hlog.
  destruct (files s !! log_path) as [[[| | | | | l |] | |] |] eqn:Hfile; try discriminate;
    injection Hlog as <-; exec; rewrite ?Hfile; exec;
    eexists _, _; (split; [reflexivity |]); (split; [reflexivity |]); simpl;
    (split; [reflexivity |]); (split; [reflexivity |]);
    (split; [intros path Hne; by rewrite lookup_insert_ne |]);
    by rewrite last_snoc.
Qed.

End PipelineFacts.

(** ** The closed runs *)

Lemma update_valon_archive_valid_witness :
  prior_archive
    (files (@start_state blank_services tt {[VALON_ARCHIVE := JsonFile used_archive]}))
  = Some used_archive
  /\ valid_archive used_archive = true
  /\ exists s' archive',
       @update_valon_archive blank_services (lit "b.pdf") JNull
         (@start_state blank_services tt {[VALON_ARCHIVE := JsonFile used_archive]})
       = (Ok tt, s')
       /\ files s' !! VALON_ARCHIVE = Some (JsonFile archive')
       /\ valid_archive archive' = true
       /\ sequence_of (lit "symbolic_events") archive'
          = Some [JObj [(lit "source", JStr (lit "a.pdf"));
                        (lit "reflected", JNull);
                        (lit "timestamp", JStr (lit "2025-06-30T09:00:00"))];
                  JObj [(lit "source", JStr (lit "b.pdf"));
                        (lit "reflected", JNull);
                        (lit "timestamp", JStr (lit "2025-07-01T12:00:00"))]].
Proof.
  set (s := @start_state blank_services tt {[VALON_ARCHIVE := JsonFile used_archive]}).
  assert (Hprior : prior_archive (files s) = Some used_archive).
  { unfold prior_archive, s. simpl. by rewrite lookup_singleton_eq. }
  assert (Hvalid : valid_archive used_archive = true) by (vm_compute; reflexivity).
  split; [exact Hprior |]. split; [exact Hvalid |].
  destruct (@update_valon_archive_valid blank_services s (lit "b.pdf") JNull)
    as (Hkept & _ & _).
  destruct (Hkept used_archive Hprior Hvalid)
    as (s' & archive' & old & Hrun & Hfile & Hok & _ & Hold & Hnew & _).
  exists s', archive'. split; [exact Hrun |]. split; [exact Hfile |].
  split; [exact Hok |]. rewrite Hnew.
  assert (Hevents : sequence_of (lit "symbolic_events") used_archive
                    = Some [JObj [(lit "source", JStr (lit "a.pdf"));
                                  (lit "reflected", JNull);
                                  (lit "timestamp", JStr (lit "2025-06-30T09:00:00"))]])
    by (vm_compute; reflexivity).
  rewrite Hevents in Hold. injection Hold as <-. vm_compute. reflexivity.
Defined.

(** C6 as the specification states it fails on a file that holds the
    list of events and nothing else: the update ends without an
    exception, and the archive it leaves has the new record but none of
    [drift_logs], [reasoning_blends] and [dream_logs]; and on a file
    without the list of events it raises and writes nothing. *)
Lemma bare_archive_not_made_valid :
  let s := @start_state blank_services tt
             {[VALON_ARCHIVE := JsonFile (JObj bare_archive)]} in
  let run := @update_valon_archive blank_services (lit "a.pdf") JNull s in
  let written :=
    JObj [(lit "symbolic_events",
           JArr [JObj [(lit "source", JStr (lit "a.pdf"));
                       (lit "reflected", JNull);
                       (lit "timestamp", JStr (lit "2025-07-01T12:00:00"))]])] in
  valid_archive (JObj bare_archive) = false
  /\ run.1 = Ok tt
  /\ files run.2 !! VALON_ARCHIVE = Some (JsonFile written)
  /\ valid_archive written = false
  /\ sequence_of (lit "drift_logs") written = None
  /\ sequence_of (lit "reasoning_blends") written = None
  /\ sequence_of (lit "dream_logs") written = None
  /\ @update_valon_archive blank_services (lit "a.pdf") JNull
       (@start_state blank_services tt corrupt_archive)
     = (Raise (KeyError (lit "symbolic_events")),
        @start_state blank_services tt corrupt_archive).
Proof. vm_compute. repeat split. Qed.


Lemma compare_results_reports_witness :
  exists s',
    @compare_results blank_services (lit "a.json") (lit "a_gemini.json")
      (@start_state blank_services tt ∅) = (Ok false, s')
    /\ files s' = ∅
    /\ stdout s' = [lit "[ERROR] Failed to compare results: error"].
Proof.
  destruct (@compare_results_reports blank_services (@start_state blank_services tt ∅)
              (lit "a.json") (lit "a_gemini.json"))
    as (b & s' & Hrun & Hfiles & _ & _ & Hmissing & _).
  destruct (Hmissing (FileNotFoundError (lit "a.json")) ltac:(vm_compute; reflexivity))
    as [-> Hout].
  exists s'. split; [exact Hrun |]. split; [exact Hfiles |].
  rewrite Hout. vm_compute. reflexivity.
Defined.

Lemma summarize_chunk_fallback_witness :
  is_error_response (lit "Error: quota exceeded") = true
  /\ exists s',
       @summarize_chunk quota_services 0 1 (lit "text")
         (@start_state quota_services tt ∅)
       = (Ok (summary_block 0 (lit "Error: connection refused")), s')
       /\ calls s' = [CallAnalyze (lit "text") 0 1;
                      CallChatGPT (fallback_prompt (lit "text"))].
Proof.
  split; [vm_compute; reflexivity |].
  destruct (@summarize_chunk_fallback quota_services (@start_state quota_services tt ∅)
              0 1 (lit "text")) as (_ & Hfallback & _).
  destruct (Hfallback ltac:(vm_compute; reflexivity)) as (s' & Hrun & Hcalls).
  exists s'. split; [| exact Hcalls].
  rewrite Hrun. vm_compute. reflexivity.
Defined.

Lemma process_pdf_empty_text_witness :
  (@pdf_page_texts blank_services (lit "source_pdfs/blank.pdf") tt).1 = inr [[]]
  /\ page_blocks 0 [[]] = []
  /\ prior_error_log (∅ : gmap str file) = Some []
  /\ exists s',
       @process_pdf blank_services (lit "source_pdfs/blank.pdf") (lit "blank.pdf") false
         (@start_state blank_services tt ∅) = (Ok false, s')
       /\ calls s' = [].
Proof.
  assert (Hpages : (@pdf_page_texts blank_services (lit "source_pdfs/blank.pdf")
                      (world (@start_state blank_services tt ∅))).1 = inr [[]])
    by reflexivity.
  assert (Hblocks : page_blocks 0 [[]] = []) by (vm_compute; reflexivity).
  assert (Hlog : prior_error_log (files (@start_state blank_services tt ∅)) = Some [])
    by (vm_compute; reflexivity).
  split; [exact Hpages |]. split; [exact Hblocks |]. split; [exact Hlog |].
  destruct (@process_pdf_empty_text blank_services (@start_state blank_services tt ∅)
              (lit "source_pdfs/blank.pdf") (lit "blank.pdf") false [[]] []
              Hpages Hblocks Hlog)
    as (s' & timestamp & _ & Hrun & Hcalls & _).
  exists s'. split; [exact Hrun | exact Hcalls].
Defined.

(** C1 as the specification states it fails on a response of the form
    [[ERROR: ...]]: it holds neither [Error:] nor [timed out], so the
    block keeps it and the secondary provider is not called. *)
Lemma bracket_error_kept :
  Py.starts_with (lit "[ERROR:") bracket_error = true
  /\ bracket_run.1 = Ok (summary_block 0 bracket_error)
  /\ calls bracket_run.2 = [CallAnalyze (lit "text") 0 1]
  /\ bracket_run.1 <> Ok (summary_block 0 (lit "A summary.")).
Proof. vm_compute. repeat split; discriminate. Qed.

(** C2 as the specification states it fails on a PDF of one page
    without text: the text is empty, [process_pdf] returns [False], and
    neither the result entry nor the archive nor the summary file is
    written; the one file written is the error log. *)
Lemma empty_text_is_failure :
  (@extract_text_from_pdf blank_services (lit "source_pdfs/blank.pdf")
     (@start_state blank_services tt ∅)).1 = Ok (Some [])
  /\ blank_run.1 = Ok false
  /\ files blank_run.2 !! modi_path (lit "blank.pdf") = None
  /\ files blank_run.2 !! valon_path (lit "blank.pdf") = None
  /\ files blank_run.2 !! VALON_ARCHIVE = None
  /\ is_Some (files blank_run.2 !! log_path)
  /\ calls blank_run.2 = [].
Proof. vm_compute. repeat split. by eexists. Qed.

(** A document with text goes through: the entry is written. *)
Example process_pdf_with_text :
  let run := @process_pdf quota_services (lit "source_pdfs/a.pdf") (lit "a.pdf") false
               (@start_state quota_services tt ∅) in
  run.1 = Ok true
  /\ is_Some (files run.2 !! modi_path (lit "a.pdf"))
  /\ (sequence_of (lit "symbolic_events") <$> prior_archive (files run.2))
     = Some (Some [symbolic_event (lit "a.pdf") (JObj []) (lit "2025-07-01T12:00:00")]).
Proof. vm_compute. repeat split. by eexists. Qed.


(** * More of the module *)

(** ** Prefixes, suffixes and paths *)

Lemma starts_with_app p r : Py.starts_with p (p ++ r) = true.
Proof.
  induction p as [| c p IH]; simpl; [reflexivity |].
  by rewrite N.eqb_refl.
Qed.

Lemma starts_with_prefix p s : Py.starts_with p s = true -> exists r, s = p ++ r.
Proof.
  revert s. induction p as [| c p IH]; intros s Hs; [by exists s |].
  destruct s as [| c' s]; [discriminate |]. simpl in Hs.
  destruct (N.eqb_spec c c') as [<- |]; [| discriminate].
  destruct (IH s Hs) as [r ->]. by exists r.
Qed.

Lemma ends_with_app s suffix : PyStr.ends_with suffix (s ++ suffix) = true.
Proof. unfold PyStr.ends_with. rewrite reverse_app. apply starts_with_app. Qed.

Lemma path_join_relative a b :
  a <> [] -> PyStr.ends_with (lit "/") a = false ->
  Py.starts_with (lit "/") b = false ->
  path_join a b = a ++ lit "/" ++ b.
Proof.
  intros Ha Hslash Hb. unfold path_join. rewrite Hb, Hslash.
  by rewrite bool_decide_eq_false_2.
Qed.

Lemma path_join_suffix a b suffix :
  PyStr.ends_with suffix b = true -> PyStr.ends_with suffix (path_join a b) = true.
Proof.
  intros Hb. unfold PyStr.ends_with in Hb.
  apply starts_with_prefix in Hb as [r Hr].
  assert (Hsplit : b = reverse r ++ suffix).
  { rewrite <- (reverse_involutive b), Hr, reverse_app. by rewrite reverse_involutive. }
  rewrite Hsplit. unfold path_join.
  destruct (Py.starts_with (lit "/") (reverse r ++ suffix)); [apply ends_with_app |].
  destruct (bool_decide (a = []) || PyStr.ends_with (lit "/") a).
  - rewrite app_assoc. apply ends_with_app.
  - rewrite !app_assoc. apply ends_with_app.
Qed.

(** The two paths [process_pdf] writes a document to end in
    [_gemini.json]; the archive and the error log do not. *)
Lemma modi_path_suffix filename :
  PyStr.ends_with (lit "_gemini.json") (modi_path filename) = true.
Proof. apply path_join_suffix, ends_with_app. Qed.

Lemma valon_path_suffix filename :
  PyStr.ends_with (lit "_gemini.json") (valon_path filename) = true.
Proof. apply path_join_suffix, ends_with_app. Qed.

Lemma result_paths_apart filename :
  modi_path filename <> VALON_ARCHIVE /\ valon_path filename <> VALON_ARCHIVE
  /\ modi_path filename <> log_path /\ valon_path filename <> log_path.
Proof.
  pose proof (modi_path_suffix filename) as Hm.
  pose proof (valon_path_suffix filename) as Hv.
  assert (Ha : PyStr.ends_with (lit "_gemini.json") VALON_ARCHIVE = false)
    by (vm_compute; reflexivity).
  assert (Hl : PyStr.ends_with (lit "_gemini.json") log_path = false)
    by (vm_compute; reflexivity).
  repeat split; intros Heq; rewrite Heq in *; congruence.
Qed.

(** [replace] with an empty replacement only takes characters away. *)
Lemma replace_scan_chars old c : forall s skip,
  c ∈ PyStr.replace_scan old [] skip s -> c ∈ s.
Proof.
  induction s as [| c' s IH]; intros skip Hc; [done |]. simpl in Hc.
  destruct skip as [| k].
  - destruct (Py.starts_with old (c' :: s)).
    + right. by apply (IH _ Hc).
    + apply elem_of_cons in Hc as [-> | Hc]; [by left | right; by apply (IH _ Hc)].
  - right. by apply (IH _ Hc).
Qed.

Lemma stem_chars c filename : c ∈ stem filename -> c ∈ filename.
Proof. unfold stem, PyStr.replace. with_strategy transparent [lit] simpl. apply replace_scan_chars. Qed.

Lemma basename_from_no_slash p : forall acc,
  47%N ∉ acc -> 47%N ∉ basename_from p acc.
Proof.
  induction p as [| c p IH]; intros acc Hacc; [exact Hacc |]. simpl.
  destruct (N.eqb_spec c 47) as [-> | Hc].
  - apply IH. apply not_elem_of_nil.
  - apply IH. rewrite elem_of_app, list_elem_of_singleton. intros [? | ?]; congruence.
Qed.

Lemma basename_no_slash p : 47%N ∉ basename p.
Proof. apply basename_from_no_slash, not_elem_of_nil. Qed.

Lemma no_slash_relative x suffix :
  47%N ∉ x -> Py.starts_with (lit "/") suffix = false ->
  suffix <> [] ->
  Py.starts_with (lit "/") (x ++ suffix) = false.
Proof.
  intros Hx Hsuffix Hne. destruct x as [| c x]; [exact Hsuffix |].
  change (Py.starts_with (lit "/") ((c :: x) ++ suffix))
    with (if N.eqb 47 c then true else false).
  destruct (N.eqb_spec 47 c) as [<- |]; [| reflexivity].
  exfalso. apply Hx. by left.
Qed.

(** X1: whatever path [process_specific_file] is given, the name it
    passes on is its last component, and the files [process_pdf] writes
    for that name lie in the vault, [memory_vault/modi/] and
    [memory_vault/valon/], under the name without [.pdf] followed by
    [_gemini.json]; the two paths differ from each other, from the
    archive and from the error log. *)
Theorem vault_paths_of_basename (filepath : str) :
  modi_path (basename filepath)
  = lit "memory_vault/modi/" ++ stem (basename filepath) ++ lit "_gemini.json"
  /\ valon_path (basename filepath)
     = lit "memory_vault/valon/" ++ stem (basename filepath) ++ lit "_gemini.json"
  /\ modi_path (basename filepath) <> valon_path (basename filepath)
  /\ modi_path (basename filepath) <> VALON_ARCHIVE
  /\ valon_path (basename filepath) <> VALON_ARCHIVE
  /\ modi_path (basename filepath) <> log_path
  /\ valon_path (basename filepath) <> log_path.
Proof.
  set (filename := basename filepath).
  assert (Hrel : Py.starts_with (lit "/") (stem filename ++ lit "_gemini.json") = false).
  { apply no_slash_relative; [| by vm_compute | by vm_compute].
    intros Hin. apply stem_chars in Hin. by apply (basename_no_slash filepath). }
  assert (Hm : modi_path filename
               = lit "memory_vault/modi/" ++ stem filename ++ lit "_gemini.json").
  { unfold modi_path. rewrite path_join_relative; [reflexivity | by vm_compute | by vm_compute | exact Hrel]. }
  assert (Hv : valon_path filename
               = lit "memory_vault/valon/" ++ stem filename ++ lit "_gemini.json").
  { unfold valon_path. rewrite path_join_relative; [reflexivity | by vm_compute | by vm_compute | exact Hrel]. }
  destruct (result_paths_apart filename) as (H1 & H2 & H3 & H4).
  split; [exact Hm |]. split; [exact Hv |]. split; [| by repeat split].
  rewrite Hm, Hv. with_strategy transparent [lit] simpl. discriminate.
Qed.

(** ** The error log *)

Section ErrorLogFacts.

Context `{Services}.

(** The run of [log_error] on a log that is a list, or absent. *)
Lemma log_error_run s reason filename logs :
  prior_error_log (files s) = Some logs ->
  log_error reason filename s
  = (Ok tt,
     {| world := (now_isoformat (world s)).2;
        files := <[log_path := JsonFile (JArr (logs ++
                    [error_entry reason filename (now_isoformat (world s)).1]))]> (files s);
        stdout := stdout s ++ [lit "[ERROR] " ++ reason ++ lit " for " ++ filename];
        calls := calls s |}).
Proof.
  intros Hlog. unfold prior_error_log in Hlog. unfold log_error. exec.
  destruct (files s !! log_path) as [[[| | | | | l |] | |] |] eqn:Hfile; try discriminate;
    injection Hlog as <-; exec; rewrite ?Hfile; exec; reflexivity.
Qed.

(** X2: on an error log that is absent or holds a list, [log_error]
    returns, and what the next call reads back is the old list with one
    entry [{timestamp, source, reason, flag}] more, at the end; no other
    file changes, no provider is called, and the one line printed names
    the reason and the file. *)
Theorem log_error_appends s reason filename logs :
  prior_error_log (files s) = Some logs ->
  exists s' timestamp,
    log_error reason filename s = (Ok tt, s')
    /\ prior_error_log (files s')
       = Some (logs ++ [error_entry reason filename timestamp])
    /\ (forall path, path <> log_path -> files s' !! path = files s !! path)
    /\ calls s' = calls s
    /\ stdout s' = stdout s ++ [lit "[ERROR] " ++ reason ++ lit " for " ++ filename].
Proof.
  intros Hlog. rewrite (log_error_run _ _ _ _ Hlog). eexists _, _.
  split; [reflexivity |]. simpl.
  split; [unfold prior_error_log; by rewrite lookup_insert_eq |].
  split; [intros path Hne; by rewrite lookup_insert_ne |]. by split.
Qed.

(** X3: on an error log that cannot be read as a list, [log_error]
    raises: the exception of [open] or [json.load], or the
    [AttributeError] of [append] on a document that is no list; the
    log is left as it was and the [[ERROR]] line is not printed. *)
Theorem log_error_corrupt_log s reason filename :
  prior_error_log (files s) = None ->
  exists e,
    (log_error reason filename s).1 = Raise e
    /\ (read_error (files s) log_path = Some e
        \/ (exists j, files s !! log_path = Some (JsonFile j)
                      /\ e = AttributeError (lit "append")))
    /\ files (log_error reason filename s).2 = files s
    /\ stdout (log_error reason filename s).2 = stdout s.
Proof.
  intros Hlog. unfold prior_error_log, read_error in *. unfold log_error. exec.
  destruct (files s !! log_path) as [[j | |] |] eqn:Hfile; try discriminate;
    exec; rewrite ?Hfile; exec;
    [| eexists; split; [reflexivity |]; split; [by left | by split] ..].
  destruct j; try discriminate; exec; eexists;
    (split; [reflexivity |]); (split; [right; by eexists | by split]).
Qed.

End ErrorLogFacts.

(** ** The extracted text *)

Lemma page_blocks_app pages1 : forall i pages2,
  page_blocks i (pages1 ++ pages2)
  = page_blocks i pages1 ++ page_blocks (i + Py.len pages1) pages2.
Proof.
  induction pages1 as [| page pages1 IH]; intros i pages2.
  - simpl. unfold Py.len. simpl. by rewrite Z.add_0_r.
  - simpl. rewrite IH, <- app_assoc. do 3 f_equal. unfold Py.len. simpl. lia.
Qed.

Lemma page_blocks_empty pages : forall i,
  page_blocks i pages = [] <-> Forall (fun page => page = []) pages.
Proof.
  induction pages as [| page pages IH]; intros i; simpl.
  - split; [constructor | reflexivity].
  - case_bool_decide as Hpage.
    + simpl. rewrite IH. split.
      * intros Hall. by constructor.
      * intros Hall. by inversion Hall.
    + split.
      * intros Hnil. apply app_eq_nil in Hnil as [Hnil _]. discriminate.
      * intros Hall. inversion Hall. contradiction.
Qed.

Lemma page_blocks_cons i page pages :
  page_blocks i (page :: pages)
  = (if bool_decide (page = []) then []
     else nl ++ lit "--- Page " ++ PyStr.of_Z (i + 1) ++ lit " ---" ++ nl
             ++ page ++ nl)
    ++ page_blocks (i + 1) pages.
Proof. reflexivity. Qed.

Lemma page_blocks_head pages : forall i,
  page_blocks i pages <> [] ->
  Py.starts_with (nl ++ lit "--- Page ") (page_blocks i pages) = true.
Proof.
  induction pages as [| page pages IH]; intros i Hne; [done |].
  rewrite page_blocks_cons in *. case_bool_decide as Hpage.
  - by apply IH.
  - rewrite <- !app_assoc. rewrite (app_assoc nl). apply starts_with_app.
Qed.

(** X4: the text [extract_text_from_pdf] builds is empty exactly when
    no page has text; otherwise it begins with a newline and the header
    [--- Page]; and the headers carry the number of the page in the
    document, pages without text counted: the text of two runs of pages
    is the text of the first followed by the text of the second
    numbered from where the first ends. *)
Theorem extracted_text_shape (pages1 pages2 : list str) (i : Z) :
  (page_blocks i pages1 = [] <-> Forall (fun page => page = []) pages1)
  /\ (page_blocks i pages1 <> [] ->
      Py.starts_with (nl ++ lit "--- Page ") (page_blocks i pages1) = true)
  /\ page_blocks i (pages1 ++ pages2)
     = page_blocks i pages1 ++ page_blocks (i + Py.len pages1) pages2
  /\ (Forall (fun page => page = []) pages1 ->
      page_blocks i (pages1 ++ pages2) = page_blocks (i + Py.len pages1) pages2).
Proof.
  split; [apply page_blocks_empty |]. split; [apply page_blocks_head |].
  split; [apply page_blocks_app |].
  intros Hblank. rewrite page_blocks_app.
  by rewrite (proj2 (page_blocks_empty pages1 i) Hblank).
Qed.

(** ** The fallback provider *)

Section FallbackFacts.

Context `{Services}.

(** X5: [query_chatgpt] never raises and writes no file; it records one
    call.  When the client answers, it returns the content as it is and
    prints nothing; when the client fails, it prints the failure and
    returns [Error: ] followed by the failure, a string that holds
    [Error:] and so passes the test [process_pdf] makes of a response
    ([is_error_response]: [Error:] or [timed out] somewhere in it).
    The content is a string, as [openai_chat] is typed. *)
Theorem query_chatgpt_returns s prompt :
  exists response,
    query_chatgpt prompt s
    = (Ok response,
       {| world := (openai_chat prompt (world s)).2;
          files := files s;
          stdout := stdout s ++
            match (openai_chat prompt (world s)).1 with
            | inl e => [lit "[ERROR] ChatGPT query failed: " ++ exn_str e]
            | inr _ => []
            end;
          calls := calls s ++ [CallChatGPT prompt] |})
    /\ match (openai_chat prompt (world s)).1 with
       | inl e => response = lit "Error: " ++ exn_str e
                  /\ is_error_response response = true
       | inr content => response = content
       end.
Proof.
  unfold query_chatgpt. exec.
  destruct (openai_chat prompt (world s)).1 as [e | content]; exec; eexists.
  - split; [reflexivity |]. split; [reflexivity |].
    unfold is_error_response. apply orb_true_iff. left.
    with_strategy transparent [lit] (vm_compute; reflexivity).
  - split; [by rewrite app_nil_r | reflexivity].
Qed.

End FallbackFacts.

(** ** More on the archive *)

Section ArchiveDomain.

Context `{Services}.

(** X6: [update_valon_archive] succeeds exactly when it finds the list
    of events: the file is absent, or holds an object with a list under
    [symbolic_events] (the other three sequences are not looked at).
    Then the events it leaves are the old ones and the new record.
    Otherwise it raises and the state is as before: nothing is written
    or printed and the clock is not read. *)
Theorem update_valon_archive_domain s filename reflection :
  match archive_events (files s) with
  | Some old =>
      exists s',
        update_valon_archive filename reflection s = (Ok tt, s')
        /\ archive_events (files s')
           = Some (old ++ [symbolic_event filename reflection
                             (now_isoformat (world s)).1])
  | None => exists e, update_valon_archive filename reflection s = (Raise e, s)
  end.
Proof.
  destruct (archive_events (files s)) as [old |] eqn:Hevents.
  - destruct (update_valon_archive_events s filename reflection old Hevents)
      as (s' & Hrun & Hnew & _).
    by exists s'.
  - by apply update_valon_archive_rejects.
Qed.

(** X7: the update keeps the keys of the document, in their order: a
    sequence that was missing is not put in, so the archive after the
    update is valid exactly when it was before. *)
Theorem update_valon_archive_keeps_keys s filename reflection d old :
  prior_archive (files s) = Some (JObj d) ->
  Dict.get (lit "symbolic_events") d = Some (JArr old) ->
  exists s' d',
    update_valon_archive filename reflection s = (Ok tt, s')
    /\ files s' !! VALON_ARCHIVE = Some (JsonFile (JObj d'))
    /\ d'.*1 = d.*1
    /\ valid_archive (JObj d') = valid_archive (JObj d).
Proof.
  intros Hprior Hget.
  rewrite (update_valon_archive_run _ _ _ _ _ Hprior Hget). eexists _, _.
  split; [reflexivity |]. simpl. split; [by rewrite lookup_insert_eq |].
  split; [by apply (dict_set_keys _ _ (JArr old)) |].
  unfold valid_archive, archive_keys, sequence_of. simpl.
  rewrite DictFacts.get_set_eq, Hget.
  rewrite !DictFacts.get_set_ne by (by vm_compute). reflexivity.
Qed.

End ArchiveDomain.

(** ** The count of the chunks *)

Lemma iterates_count (content : str) k :
  iterates CHUNK_SIZE OVERLAP content k 0 ->
  Z.of_nat k = (Py.len content + 2499) / 2500.
Proof.
  unfold CHUNK_SIZE, OVERLAP. intros [Hlt Hge].
  pose proof (len_nonneg content) as Hn.
  apply (Z.div_unique_pos _ _ _ (Py.len content + 2499 - 2500 * Z.of_nat k)); [| lia].
  destruct k as [| k]; [lia |]. specialize (Hlt k ltac:(lia)). lia.
Qed.

(** X8: [process_pdf] cuts a text of [n] characters into
    [ceil(n / 2500)] chunks, none of them empty and none longer than
    3000 characters; it cuts no chunk only from the empty text. *)
Theorem chunks_of_count (content : str) :
  Z.of_nat (length (chunks_of content)) = (Py.len content + 2499) / 2500
  /\ Forall (fun chunk => 0 < Py.len chunk <= 3000) (chunks_of content)
  /\ (chunks_of content = [] <-> content = []).
Proof.
  destruct (iterates_exists CHUNK_SIZE OVERLAP content ltac:(by vm_compute) 0) as [k Hk].
  pose proof (iterates_count content k Hk) as Hcount.
  assert (Hchunks : chunks_of content = windows CHUNK_SIZE OVERLAP content k 0).
  { unfold chunks_of. by rewrite (chunker_iterates _ _ _ k) by (by vm_compute || assumption). }
  rewrite Hchunks. pose proof (len_nonneg content) as Hn.
  split; [by rewrite length_windows |]. split.
  - apply Forall_lookup. intros j chunk Hj.
    assert (Hjk : (j < k)%nat).
    { apply lookup_lt_Some in Hj. by rewrite length_windows in Hj. }
    rewrite lookup_windows in Hj by assumption. injection Hj as <-.
    destruct Hk as [Hlt _]. specialize (Hlt j Hjk).
    unfold CHUNK_SIZE, OVERLAP in *.
    rewrite len_chunk_at by lia. lia.
  - split.
    + intros Hnil. assert (k = 0%nat) as -> by (by rewrite <- (length_windows CHUNK_SIZE OVERLAP content k 0), Hnil).
      destruct content; [done |]. unfold Py.len in Hcount. simpl in Hcount.
      assert (0 < (Z.of_nat (S (length content)) + 2499) / 2500)
        by (apply Z.div_str_pos; lia).
      lia.
    + intros ->. destruct k as [| k]; [done |].
      change (Py.len (A := N) []) with 0 in Hcount. vm_compute in Hcount. lia.
Qed.

(** X9: the chunking loop fails to end (no number of tests of its
    condition is enough) exactly on a text that is not empty with a
    step [chunk_size - overlap] that is not positive. *)
Theorem chunk_loop_never_ends_iff {A} (content : list A) (chunk_size overlap : Z) :
  (forall fuel, chunk_loop chunk_size overlap content fuel 0 [] = None)
  <-> content <> [] /\ chunk_size - overlap <= 0.
Proof.
  split.
  - intros Hnone. destruct content as [| c content].
    + specialize (Hnone 1%nat). discriminate.
    + split; [done |].
      destruct (Z.le_gt_cases (chunk_size - overlap) 0) as [| Hstep]; [assumption |].
      destruct (iterates_exists chunk_size overlap (c :: content) ltac:(lia) 0)
        as [k Hk].
      specialize (Hnone (S k)).
      rewrite (chunk_loop_run _ _ _ k) in Hnone by (lia || assumption). discriminate.
  - intros [Hne Hstep] fuel. apply chunk_loop_stuck; [assumption |].
    destruct content; [done |]. unfold Py.len. simpl. lia.
Qed.

(** ** The summary loop *)

Section SummaryLoopFacts.

Context `{Services}.

Lemma analyze_calls_app cs1 cs2 :
  analyze_calls (cs1 ++ cs2) = analyze_calls cs1 ++ analyze_calls cs2.
Proof. unfold analyze_calls. apply omap_app. Qed.

Lemma summary_block_head i response :
  Py.starts_with (lit "--- Chunk " ++ PyStr.of_Z (i + 1) ++ lit " ---" ++ nl)
    (summary_block i response) = true.
Proof.
  unfold summary_block. rewrite !(app_assoc _ _ (PyStr.strip response)).
  rewrite <- !app_assoc. rewrite !(app_assoc _ _ (PyStr.strip response)).
  apply starts_with_app.
Qed.

(** One pass of the loop body: one block, one call to the primary
    provider and at most one to the secondary. *)
Lemma summarize_chunk_run s i total chunk :
  exists s' response more,
    summarize_chunk i total chunk s = (Ok (summary_block i response), s')
    /\ files s' = files s
    /\ calls s' = calls s ++ CallAnalyze chunk i total :: more
    /\ analyze_calls more = []
    /\ (length more <= 1)%nat.
Proof.
  unfold summarize_chunk, query_chatgpt. exec.
  destruct (is_error_response _); exec;
    [destruct (openai_chat _ _).1; exec |]; eexists _, _, _;
    (split; [reflexivity |]); (split; [reflexivity |]); simpl;
    rewrite <- ?app_assoc; (split; [reflexivity |]); split;
    try reflexivity; simpl; lia.
Qed.

(** X10: with providers as [Services] types them (each call returns,
    and each response is a string), the summary loop ends and writes no
    file; it appends one block per chunk, in order, block [j] under the
    header [--- Chunk j+1 ---]; it calls the primary provider once per
    chunk, in order, with the chunk, its index and the total, and makes
    at most one more call per chunk. *)
Theorem summarize_loop_calls chunks : forall s i total summaries,
  exists s' blocks new_calls,
    summarize_loop i total chunks summaries s = (Ok (summaries ++ blocks), s')
    /\ length blocks = length chunks
    /\ (forall (j : nat) block, blocks !! j = Some block ->
        Py.starts_with
          (lit "--- Chunk " ++ PyStr.of_Z (i + Z.of_nat j + 1) ++ lit " ---" ++ nl)
          block = true)
    /\ calls s' = calls s ++ new_calls
    /\ analyze_calls new_calls
       = imap (fun (j : nat) chunk => (chunk, i + Z.of_nat j, total)) chunks
    /\ (length chunks <= length new_calls <= 2 * length chunks)%nat
    /\ files s' = files s.
Proof.
  induction chunks as [| chunk rest IH]; intros s i total summaries.
  - exists s, [], []. simpl. unfold ret. rewrite !app_nil_r.
    repeat split; [by intros j block Hj | lia | lia].
  - simpl. unfold bind at 1.
    destruct (summarize_chunk_run s i total chunk)
      as (s1 & response & more & -> & Hfiles & Hcalls & Hmore & Hlen).
    destruct (IH s1 (i + 1) total (summaries ++ [summary_block i response]))
      as (s' & blocks & new_calls & -> & Hblocks & Hheads & Hcalls' & Hanalyze
          & Hcount & Hfiles').
    exists s', (summary_block i response :: blocks),
      (CallAnalyze chunk i total :: more ++ new_calls).
    rewrite <- app_assoc. simpl.
    split; [reflexivity |]. split; [by rewrite Hblocks |]. split; [| split; [| split; [| split]]].
    + intros [| j] block Hj; simpl in Hj.
      * injection Hj as <-. rewrite Z.add_0_r. apply summary_block_head.
      * specialize (Hheads j block Hj).
        by replace (i + Z.of_nat (S j) + 1) with (i + 1 + Z.of_nat j + 1) by lia.
    + rewrite Hcalls', Hcalls. by rewrite <- app_assoc.
    + change (analyze_calls (CallAnalyze chunk i total :: more ++ new_calls))
        with ((chunk, i, total) :: analyze_calls (more ++ new_calls)).
      rewrite analyze_calls_app, Hmore, Hanalyze. simpl. rewrite Z.add_0_r.
      f_equal. apply imap_ext. intros j x _. simpl. do 2 f_equal. lia.
    + rewrite length_app. simpl. lia.
    + congruence.
Qed.

End SummaryLoopFacts.

(** ** [process_pdf] from end to end *)

#[local] Opaque chunks_of Py.slice Py.len PyStr.join PyStr.of_Z.

(** Runs [process_pdf] up to the test of [link], on a text that is not
    empty. *)
Ltac process_pdf_front Hpages Hcontent :=
  unfold process_pdf, extract_text_from_pdf; exec; rewrite Hpages; exec;
  rewrite Hcontent; exec;
  match goal with
  | |- context [summarize_loop ?i ?t ?ch ?acc ?st] =>
      let s1 := fresh "s1" in
      let blocks := fresh "blocks" in
      let Hloop := fresh "Hloop" in
      let Hlen := fresh "Hlen" in
      let Hfiles := fresh "Hfiles" in
      destruct (summarize_loop_blocks ch st i t acc)
        as (s1 & blocks & Hloop & Hlen & Hfiles);
      rewrite Hloop; simpl in Hfiles
  end;
  unfold reflect_valon; exec.

Section ProcessPdfFacts.

Context `{Services}.

(** The run of [process_pdf] on a document without text. *)
Lemma process_pdf_no_text s filepath filename link logs :
  match (pdf_page_texts filepath (world s)).1 with
  | inl _ => True
  | inr pages => page_blocks 0 pages = []
  end ->
  prior_error_log (files s) = Some logs ->
  exists s' timestamp,
    process_pdf filepath filename link s = (Ok false, s')
    /\ calls s' = calls s
    /\ files s'
       = <[log_path := JsonFile (JArr (logs ++
            [error_entry (lit "Failed to extract text") filename timestamp]))]> (files s)
    /\ last (stdout s') = Some (lit "[ERROR] Failed to extract text for " ++ filename).
Proof.
  intros Htext Hlog. unfold process_pdf, extract_text_from_pdf. exec.
  destruct (pdf_page_texts filepath (world s)).1 as [e | pages]; exec;
    [| rewrite Htext];
    match goal with
    | |- context [log_error ?r ?f ?st] =>
        rewrite (log_error_run st r f logs Hlog)
    end; eexists _, _; (split; [reflexivity |]); simpl;
    (split; [reflexivity |]); (split; [reflexivity |]); by rewrite last_snoc.
Qed.

(** X11: when the PDF reader raises, [process_pdf] does not: it prints
    the failure, appends an entry to the error log and returns [False];
    no provider is called and no other file is written. *)
Theorem process_pdf_reader_fails s filepath filename link e logs :
  (pdf_page_texts filepath (world s)).1 = inl e ->
  prior_error_log (files s) = Some logs ->
  exists s' timestamp,
    process_pdf filepath filename link s = (Ok false, s')
    /\ calls s' = calls s
    /\ prior_error_log (files s')
       = Some (logs ++ [error_entry (lit "Failed to extract text") filename timestamp])
    /\ (forall path, path <> log_path -> files s' !! path = files s !! path)
    /\ lit "[ERROR] Failed to extract text: " ++ exn_str e ∈ stdout s'.
Proof.
  intros Hreader Hlog.
  destruct (process_pdf_no_text s filepath filename link logs) as (s' & ts & Hrun & Hcalls & Hfiles & _);
    [by rewrite Hreader | assumption |].
  exists s', ts. split; [exact Hrun |]. split; [exact Hcalls |].
  split; [unfold prior_error_log; by rewrite Hfiles, lookup_insert_eq |].
  split; [intros path Hne; by rewrite Hfiles, lookup_insert_ne |].
  revert Hrun. unfold process_pdf, extract_text_from_pdf. exec. rewrite Hreader. exec.
  match goal with
  | |- context [log_error ?r ?f ?st] => rewrite (log_error_run st r f logs Hlog)
  end.
  intros [= <-]. simpl. set_solver.
Qed.

(** The run of [process_pdf] on a document with text, without the
    memory link, on an archive that has its events. *)
Lemma process_pdf_text_run s filepath filename pages old :
  (pdf_page_texts filepath (world s)).1 = inr pages ->
  page_blocks 0 pages <> [] ->
  archive_events (files s) = Some old ->
  exists s' blocks timestamp reflection uid timestamp' d',
    process_pdf filepath filename false s = (Ok true, s')
    /\ length blocks = length (chunks_of (page_blocks 0 pages))
    /\ files s'
       = <[valon_path filename :=
             JsonFile (JObj [(lit "summary", JStr (PyStr.join (nl ++ nl) blocks));
                             (lit "reflection", reflection)])]>
           (<[VALON_ARCHIVE := JsonFile (JObj d')]>
              (<[modi_path filename :=
                   JsonFile (JObj
                     (if truthy uid
                      then Dict.set (lit "hybrid_uid") uid
                             (result_entry filename timestamp (page_blocks 0 pages)
                                (PyStr.join (nl ++ nl) blocks) reflection)
                      else result_entry filename timestamp (page_blocks 0 pages)
                             (PyStr.join (nl ++ nl) blocks) reflection))]> (files s)))
    /\ sequence_of (lit "symbolic_events") (JObj d')
       = Some (old ++ [symbolic_event filename reflection timestamp'])
    /\ CallReflect (page_blocks 0 pages) ∈ calls s'.
Proof.
  intros Hpages Hne Hevents.
  destruct (archive_events_some _ _ Hevents) as (d & Hprior & Hget).
  destruct (page_blocks 0 pages) as [| c content] eqn:Hcontent; [done |].
  destruct (result_paths_apart filename) as (Hmodi & Hvalon & _ & _).
  process_pdf_front Hpages Hcontent.
  match goal with
  | |- context [update_valon_archive ?f ?r ?st] =>
      rewrite (update_valon_archive_run st f r d old)
  end; [| | exact Hget].
  - exec. eexists _, blocks, _, _, _, _, _.
    split; [reflexivity |]. split; [exact Hlen |]. simpl. rewrite Hfiles.
    split; [reflexivity |]. split; [apply sequence_of_set_eq |]. set_solver.
  - unfold prior_archive in *. simpl.
    rewrite lookup_insert_ne by assumption. by rewrite Hfiles.
Qed.

(** X12: on a document with text, without the memory link, with an
    archive that has its events and two distinct result paths,
    [process_pdf] returns [True] and has written three files: the
    result entry, with the source, a sample of at most 5000 characters,
    the length of the whole text, the summary (one block per chunk) and
    the reflection; the summary file with the same summary and
    reflection; and the archive, with one event more that holds the
    same reflection. *)
Theorem process_pdf_writes s filepath filename pages old :
  (pdf_page_texts filepath (world s)).1 = inr pages ->
  page_blocks 0 pages <> [] ->
  archive_events (files s) = Some old ->
  modi_path filename <> valon_path filename ->
  exists s' blocks timestamp reflection timestamp' entry,
    process_pdf filepath filename false s = (Ok true, s')
    /\ length blocks = length (chunks_of (page_blocks 0 pages))
    /\ files s' !! modi_path filename = Some (JsonFile (JObj entry))
    /\ (forall key v,
          Dict.get key
            (result_entry filename timestamp (page_blocks 0 pages)
               (PyStr.join (nl ++ nl) blocks) reflection) = Some v ->
          Dict.get key entry = Some v)
    /\ files s' !! valon_path filename
       = Some (JsonFile (JObj [(lit "summary", JStr (PyStr.join (nl ++ nl) blocks));
                               (lit "reflection", reflection)]))
    /\ archive_events (files s')
       = Some (old ++ [symbolic_event filename reflection timestamp'])
    /\ (forall path,
          path <> modi_path filename -> path <> valon_path filename ->
          path <> VALON_ARCHIVE -> files s' !! path = files s !! path).
Proof.
  intros Hpages Hne Hevents Hpaths.
  destruct (result_paths_apart filename) as (Hmodi & Hvalon & _ & _).
  destruct (process_pdf_text_run s filepath filename pages old Hpages Hne Hevents)
    as (s' & blocks & ts & reflection & uid & ts' & d' & Hrun & Hlen & Hfiles
        & Hseq & _).
  eexists s', blocks, ts, reflection, ts', _.
  split; [exact Hrun |]. split; [exact Hlen |]. rewrite Hfiles.
  split; [rewrite lookup_insert_ne by done; rewrite lookup_insert_ne by done;
          by rewrite lookup_insert_eq |].
  split; [| split; [by rewrite lookup_insert_eq | split]].
  - intros key v Hkey. destruct (truthy uid); [| exact Hkey].
    rewrite DictFacts.get_set_ne; [exact Hkey |]. intros <-.
    revert Hkey. with_strategy transparent [Dict.get lit] (vm_compute; discriminate).
  - unfold archive_events, prior_archive.
    rewrite lookup_insert_ne by done. rewrite lookup_insert_eq. exact Hseq.
  - intros path H1 H2 H3. by rewrite !lookup_insert_ne.
Qed.

(** With the link asked for, the run ends at [assign_uid]. *)
Lemma process_pdf_link_aborts_run s filepath filename pages :
  (pdf_page_texts filepath (world s)).1 = inr pages ->
  page_blocks 0 pages <> [] ->
  exists s',
    process_pdf filepath filename true s = (Raise (NameError (lit "assign_uid")), s')
    /\ files s' = files s.
Proof.
  intros Hpages Hne.
  destruct (page_blocks 0 pages) as [| c content] eqn:Hcontent; [done |].
  process_pdf_front Hpages Hcontent.
  eexists. split; [reflexivity |]. exact Hfiles.
Qed.

(** X13: with the memory link asked for, [process_pdf] raises
    [NameError] on every document with text: [assign_uid] is defined
    nowhere in the module.  The providers have been called by then, the
    reflection among them, and no file has been written. *)
Theorem process_pdf_link_raises s filepath filename pages :
  (pdf_page_texts filepath (world s)).1 = inr pages ->
  page_blocks 0 pages <> [] ->
  exists s',
    process_pdf filepath filename true s = (Raise (NameError (lit "assign_uid")), s')
    /\ files s' = files s
    /\ CallReflect (page_blocks 0 pages) ∈ calls s'.
Proof.
  intros Hpages Hne.
  destruct (page_blocks 0 pages) as [| c content] eqn:Hcontent; [done |].
  process_pdf_front Hpages Hcontent.
  eexists. split; [reflexivity |]. simpl. split; [exact Hfiles | set_solver].
Qed.

(** X14: when the archive is there without its list of events, a
    document with text makes [process_pdf] raise in the archive update,
    after the result entry was written and before the summary file: the
    entry is the one file that changed. *)
Theorem process_pdf_corrupt_archive s filepath filename pages :
  (pdf_page_texts filepath (world s)).1 = inr pages ->
  page_blocks 0 pages <> [] ->
  archive_events (files s) = None ->
  exists e s' entry,
    process_pdf filepath filename false s = (Raise e, s')
    /\ files s' = <[modi_path filename := JsonFile (JObj entry)]> (files s)
    /\ Dict.get (lit "full_content_length") entry
       = Some (JInt (Py.len (page_blocks 0 pages))).
Proof.
  intros Hpages Hne Hevents.
  destruct (page_blocks 0 pages) as [| c content] eqn:Hcontent; [done |].
  destruct (result_paths_apart filename) as (Hmodi & _).
  process_pdf_front Hpages Hcontent.
  match goal with
  | |- context [update_valon_archive ?f ?r ?st] =>
      destruct (update_valon_archive_rejects st f r) as [e Hup]; [| rewrite Hup]
  end.
  { unfold archive_events, prior_archive in *. simpl.
    rewrite lookup_insert_ne by assumption. by rewrite Hfiles. }
  eexists e, _, _. split; [reflexivity |]. simpl. rewrite Hfiles.
  split; [reflexivity |].
  destruct (truthy _).
  - rewrite DictFacts.get_set_ne by (by vm_compute).
    with_strategy transparent [Dict.get lit] (by vm_compute).
  - with_strategy transparent [Dict.get lit] (by vm_compute).
Qed.

End ProcessPdfFacts.

(** ** The batch *)

#[local] Transparent Py.len.

Section BatchFacts.

Context `{Services}.

(** On a vault in order [process_pdf] without the link returns, leaves
    the vault in order, and adds one event for a document it processed
    or one log entry for one it failed on. *)
Lemma process_pdf_total s filepath filename old logs :
  archive_events (files s) = Some old ->
  prior_error_log (files s) = Some logs ->
  exists done s' added,
    process_pdf filepath filename false s = (Ok done, s')
    /\ archive_events (files s') = Some (old ++ (if done then [added] else []))
    /\ prior_error_log (files s') = Some (logs ++ (if done then [] else [added])).
Proof.
  intros Hevents Hlog.
  destruct (result_paths_apart filename) as (Hmodi & Hvalon & Hmodi' & Hvalon').
  assert (Hpaths : VALON_ARCHIVE <> log_path) by (by vm_compute).
  destruct (pdf_page_texts filepath (world s)).1 as [e | pages] eqn:Hreader;
    [| destruct (decide (page_blocks 0 pages = [])) as [Hblank | Htext]].
  - destruct (process_pdf_no_text s filepath filename false logs)
      as (s' & ts & Hrun & _ & Hfiles & _); [by rewrite Hreader | assumption |].
    eexists false, s', _. split; [exact Hrun |]. rewrite Hfiles.
    unfold archive_events, prior_archive, prior_error_log in *.
    rewrite lookup_insert_ne by done. rewrite lookup_insert_eq, app_nil_r.
    split; [exact Hevents | reflexivity].
  - destruct (process_pdf_no_text s filepath filename false logs)
      as (s' & ts & Hrun & _ & Hfiles & _); [by rewrite Hreader | assumption |].
    eexists false, s', _. split; [exact Hrun |]. rewrite Hfiles.
    unfold archive_events, prior_archive, prior_error_log in *.
    rewrite lookup_insert_ne by done. rewrite lookup_insert_eq, app_nil_r.
    split; [exact Hevents | reflexivity].
  - destruct (process_pdf_text_run s filepath filename pages old Hreader Htext Hevents)
      as (s' & blocks & ts & reflection & uid & ts' & d' & Hrun & _ & Hfiles
          & Hseq & _).
    eexists true, s', _. split; [exact Hrun |]. rewrite Hfiles.
    unfold archive_events, prior_archive, prior_error_log in *.
    rewrite (lookup_insert_ne _ (valon_path filename) VALON_ARCHIVE) by done.
    rewrite lookup_insert_eq. simpl.
    rewrite !lookup_insert_ne by done. rewrite app_nil_r.
    split; [exact Hseq | exact Hlog].
Qed.

(** The loop of [process_directory] on a vault in order. *)
Lemma process_directory_loop_run listing : forall s processed failed old logs,
  archive_events (files s) = Some old ->
  prior_error_log (files s) = Some logs ->
  exists s' events entries,
    process_directory_loop listing false processed failed s
    = (Ok (processed + Py.len events, failed + Py.len entries), s')
    /\ archive_events (files s') = Some (old ++ events)
    /\ prior_error_log (files s') = Some (logs ++ entries)
    /\ (length events + length entries
        = length (List.filter (PyStr.ends_with (lit ".pdf")) listing))%nat.
Proof.
  induction listing as [| filename rest IH]; intros s processed failed old logs Hev Hlog.
  - exists s, [], []. simpl. unfold ret, Py.len. simpl.
    rewrite !Z.add_0_r, !app_nil_r. by repeat split.
  - simpl. destruct (PyStr.ends_with (lit ".pdf") filename); [| by apply IH].
    unfold bind at 1.
    destruct (process_pdf_total s (path_join SOURCE_DIR filename) filename old logs
                Hev Hlog) as (done & s1 & added & -> & Hev1 & Hlog1).
    destruct done.
    + destruct (IH s1 (processed + 1) failed _ _ Hev1 Hlog1)
        as (s' & events & entries & -> & Hev' & Hlog' & Hcount).
      exists s', (added :: events), entries. rewrite app_nil_r in Hlog'.
      rewrite <- app_assoc in Hev'. simpl in *.
      split; [do 3 f_equal; unfold Py.len; simpl; lia |].
      split; [exact Hev' |]. split; [exact Hlog' | lia].
    + destruct (IH s1 processed (failed + 1) _ _ Hev1 Hlog1)
        as (s' & events & entries & -> & Hev' & Hlog' & Hcount).
      exists s', events, (added :: entries). rewrite app_nil_r in Hev'.
      rewrite <- app_assoc in Hlog'. simpl in *.
      split; [do 3 f_equal; unfold Py.len; simpl; lia |].
      split; [exact Hev' |]. split; [exact Hlog' | lia].
Qed.

(** X15: on a vault in order (the archive has its events, the error log
    is a list, or either is absent), without the memory link, and with
    providers as [Services] types them (each call returns, and each
    response is a string), [process_directory] returns, whatever the
    directory holds and whether the PDF reader succeeds or raises:
    every name that ends in [.pdf] is counted as processed or as
    failed, the archive gains one event per processed document and the
    error log one entry per failed one, and the last line printed gives
    the two counts. *)
Theorem process_directory_counts s listing old logs :
  archive_events (files s) = Some old ->
  prior_error_log (files s) = Some logs ->
  exists s' events entries,
    process_directory listing false s = (Ok tt, s')
    /\ archive_events (files s') = Some (old ++ events)
    /\ prior_error_log (files s') = Some (logs ++ entries)
    /\ (length events + length entries
        = length (List.filter (PyStr.ends_with (lit ".pdf")) listing))%nat
    /\ last (stdout s')
       = Some (lit "[COMPLETE] Processed " ++ PyStr.of_Z (Py.len events)
                 ++ lit " PDFs with Gemini, " ++ PyStr.of_Z (Py.len entries)
                 ++ lit " failed").
Proof.
  intros Hev Hlog. unfold process_directory. exec.
  match goal with
  | |- context [process_directory_loop ?l false ?p ?f ?st] =>
      destruct (process_directory_loop_run l st p f old logs Hev Hlog)
        as (s' & events & entries & -> & Hev' & Hlog' & Hcount)
  end.
  exec. eexists _, events, entries. split; [reflexivity |]. simpl.
  split; [exact Hev' |]. split; [exact Hlog' |]. split; [exact Hcount |].
  by rewrite last_snoc.
Qed.

(** With the memory link asked for, [process_pdf] either fails on a
    document without text, or raises before it writes. *)
Lemma process_pdf_link_run s filepath filename logs :
  prior_error_log (files s) = Some logs ->
  exists s',
    (exists entry,
        process_pdf filepath filename true s = (Ok false, s')
        /\ files s' = <[log_path := JsonFile (JArr (logs ++ [entry]))]> (files s))
    \/ (process_pdf filepath filename true s = (Raise (NameError (lit "assign_uid")), s')
        /\ files s' = files s).
Proof.
  intros Hlog.
  destruct (pdf_page_texts filepath (world s)).1 as [e | pages] eqn:Hreader;
    [| destruct (decide (page_blocks 0 pages = [])) as [Hblank | Htext]].
  - destruct (process_pdf_no_text s filepath filename true logs)
      as (s' & ts & Hrun & _ & Hfiles & _); [by rewrite Hreader | assumption |].
    exists s'. left. by eexists.
  - destruct (process_pdf_no_text s filepath filename true logs)
      as (s' & ts & Hrun & _ & Hfiles & _); [by rewrite Hreader | assumption |].
    exists s'. left. by eexists.
  - destruct (process_pdf_link_aborts_run s filepath filename pages Hreader Htext)
      as (s' & Hrun & Hfiles).
    exists s'. by right.
Qed.

(** The loop of [process_directory] with the memory link asked for. *)
Lemma process_directory_loop_link listing : forall s processed failed logs,
  prior_error_log (files s) = Some logs ->
  exists out s' entries,
    process_directory_loop listing true processed failed s = (out, s')
    /\ prior_error_log (files s') = Some (logs ++ entries)
    /\ (forall path, path <> log_path -> files s' !! path = files s !! path)
    /\ (out = Ok (processed, failed + Py.len entries)
        /\ length entries = length (List.filter (PyStr.ends_with (lit ".pdf")) listing)
        \/ exists before filename rest,
             out = Raise (NameError (lit "assign_uid"))
             /\ listing = before ++ filename :: rest
             /\ PyStr.ends_with (lit ".pdf") filename = true
             /\ length entries
                = length (List.filter (PyStr.ends_with (lit ".pdf")) before)).
Proof.
  induction listing as [| filename rest IH]; intros s processed failed logs Hlog.
  - exists (Ok (processed, failed)), s, []. simpl. unfold ret, Py.len. simpl.
    rewrite Z.add_0_r, app_nil_r. split; [reflexivity |]. split; [exact Hlog |].
    split; [done |]. by left.
  - simpl. destruct (PyStr.ends_with (lit ".pdf") filename) eqn:Hpdf.
    + unfold bind at 1.
      destruct (process_pdf_link_run s (path_join SOURCE_DIR filename) filename logs Hlog)
        as (s1 & [(entry & -> & Hfiles1) | (-> & Hfiles1)]).
      * assert (Hlog1 : prior_error_log (files s1) = Some (logs ++ [entry])).
        { rewrite Hfiles1. unfold prior_error_log. by rewrite lookup_insert_eq. }
        destruct (IH s1 processed (failed + 1) _ Hlog1)
          as (out & s' & entries & -> & Hlog' & Hframe & Hout).
        exists out, s', (entry :: entries). split; [reflexivity |].
        split; [by rewrite <- app_assoc in Hlog' |].
        split.
        { intros path Hne. rewrite (Hframe path Hne), Hfiles1.
          by rewrite lookup_insert_ne. }
        destruct Hout as [(-> & Hcount) | (before & name & rest' & -> & -> & Hname & Hcount)].
        -- left. split; [do 2 f_equal; unfold Py.len; simpl; lia | simpl; lia].
        -- right. exists (filename :: before), name, rest'.
           split; [reflexivity |]. split; [reflexivity |]. split; [exact Hname |].
           simpl. rewrite Hpdf. simpl. lia.
      * exists (Raise (NameError (lit "assign_uid"))), s1, []. split; [reflexivity |].
        rewrite Hfiles1, app_nil_r. split; [exact Hlog |]. split; [done |].
        right. exists [], filename, rest. by repeat split.
    + destruct (IH s processed failed logs Hlog)
        as (out & s' & entries & -> & Hlog' & Hframe & Hout).
      exists out, s', entries. split; [reflexivity |]. split; [exact Hlog' |].
      split; [exact Hframe |].
      destruct Hout as [(-> & Hcount) | (before & name & rest' & -> & -> & Hname & Hcount)].
      * by left.
      * right. exists (filename :: before), name, rest'.
        split; [reflexivity |]. split; [reflexivity |]. split; [exact Hname |].
        simpl. by rewrite Hpdf.
Qed.

(** X16: with the memory link asked for, a batch never gets a document
    through.  On a usable error log, and with providers that answer
    with strings, [process_directory] either returns with [Processed 0
    PDFs], every name in [.pdf] counted as failed and logged, or raises
    [NameError] at a name in [.pdf], the ones before it logged as
    failed; either way the error log is the only file written.  A PDF
    with text at the head of the listing makes it raise at once, before
    any file is written. *)
Theorem process_directory_link_aborts s listing logs :
  prior_error_log (files s) = Some logs ->
  exists out s' entries,
    process_directory listing true s = (out, s')
    /\ prior_error_log (files s') = Some (logs ++ entries)
    /\ (forall path, path <> log_path -> files s' !! path = files s !! path)
    /\ (out = Ok tt
        /\ length entries = length (List.filter (PyStr.ends_with (lit ".pdf")) listing)
        /\ last (stdout s')
           = Some (lit "[COMPLETE] Processed 0 PDFs with Gemini, "
                     ++ PyStr.of_Z (Py.len entries) ++ lit " failed")
        \/ exists before filename rest,
             out = Raise (NameError (lit "assign_uid"))
             /\ listing = before ++ filename :: rest
             /\ PyStr.ends_with (lit ".pdf") filename = true
             /\ length entries
                = length (List.filter (PyStr.ends_with (lit ".pdf")) before))
    /\ (forall filename rest pages,
          listing = filename :: rest ->
          PyStr.ends_with (lit ".pdf") filename = true ->
          (pdf_page_texts (path_join SOURCE_DIR filename) (world s)).1 = inr pages ->
          page_blocks 0 pages <> [] ->
          out = Raise (NameError (lit "assign_uid")) /\ files s' = files s).
Proof.
  intros Hlog.
  assert (Hhead : forall st filename rest pages,
             files st = files s -> world st = world s ->
             PyStr.ends_with (lit ".pdf") filename = true ->
             (pdf_page_texts (path_join SOURCE_DIR filename) (world s)).1 = inr pages ->
             page_blocks 0 pages <> [] ->
             exists s1,
               process_directory_loop (filename :: rest) true 0 0 st
               = (Raise (NameError (lit "assign_uid")), s1)
               /\ files s1 = files s).
  { intros st filename rest pages Hst Hw Hpdf Hpages Htext. simpl. rewrite Hpdf.
    rewrite <- Hw in Hpages.
    destruct (process_pdf_link_aborts_run st (path_join SOURCE_DIR filename) filename
                pages Hpages Htext) as (s1 & Hrun & Hfiles).
    exists s1. unfold bind at 1. rewrite Hrun. split; [reflexivity | congruence]. }
  unfold process_directory. exec.
  match goal with
  | |- context [process_directory_loop ?l true ?p ?f ?st] =>
      destruct (process_directory_loop_link l st p f logs Hlog)
        as (out & s' & entries & Hrun & Hlog' & Hframe & Hout);
      specialize (Hhead st)
  end.
  rewrite Hrun.
  destruct Hout as [(-> & Hcount) | (before & name & rest' & -> & Hsplit & Hname & Hcount)].
  - exec. eexists _, _, entries. split; [reflexivity |]. simpl.
    split; [exact Hlog' |]. split; [exact Hframe |].
    split.
    + left. split; [reflexivity |]. split; [exact Hcount |].
      rewrite last_snoc. reflexivity.
    + intros filename rest pages Hl Hpdf Hpages Htext.
      rewrite Hl in Hrun.
      destruct (Hhead filename rest pages eq_refl eq_refl Hpdf Hpages Htext)
        as (s1 & Hrun1 & _).
      rewrite Hrun in Hrun1. discriminate.
  - exec. eexists _, _, entries. split; [reflexivity |].
    split; [exact Hlog' |]. split; [exact Hframe |].
    split.
    + right. exists before, name, rest'. by repeat split.
    + intros filename rest pages Hl Hpdf Hpages Htext.
      rewrite Hl in Hrun.
      destruct (Hhead filename rest pages eq_refl eq_refl Hpdf Hpages Htext)
        as (s1 & Hrun1 & Hfiles).
      rewrite Hrun in Hrun1. injection Hrun1 as <-. by split.
Qed.

End BatchFacts.

(** ** One file, and [main] *)

Section EntryPointFacts.

Context `{Services}.

(** X17: on a vault in order, without the memory link, and with
    providers as [Services] types them (each call returns, and each
    response is a string), [process_specific_file] returns.  A path
    whose last component does not end in [.pdf] gets the one line
    [[ERROR] ... is not a PDF file] and nothing else happens; any other
    path is processed under its last component, and the closing line
    says whether an event was added to the archive or an entry to the
    error log. *)
Theorem process_specific_file_returns s filepath old logs :
  archive_events (files s) = Some old ->
  prior_error_log (files s) = Some logs ->
  exists s' line,
    process_specific_file filepath false s = (Ok tt, s')
    /\ last (stdout s') = Some line
    /\ (PyStr.ends_with (lit ".pdf") (basename filepath) = false ->
        line = lit "[ERROR] " ++ filepath ++ lit " is not a PDF file"
        /\ files s' = files s /\ calls s' = calls s)
    /\ (PyStr.ends_with (lit ".pdf") (basename filepath) = true ->
        (line = lit "[COMPLETE] Successfully processed " ++ basename filepath
                  ++ lit " with Gemini"
         /\ (exists event, archive_events (files s') = Some (old ++ [event]))
         /\ prior_error_log (files s') = Some logs)
        \/ (line = lit "[COMPLETE] Failed to process " ++ basename filepath
                     ++ lit " with Gemini"
            /\ archive_events (files s') = Some old
            /\ exists entry, prior_error_log (files s') = Some (logs ++ [entry]))).
Proof.
  intros Hev Hlog. unfold process_specific_file.
  destruct (PyStr.ends_with (lit ".pdf") (basename filepath)).
  - unfold bind at 1.
    destruct (process_pdf_total s filepath (basename filepath) old logs Hev Hlog)
      as (done & s1 & added & -> & Hev1 & Hlog1).
    destruct done; exec; eexists _, _; (split; [reflexivity |]); simpl;
      rewrite last_snoc; (split; [reflexivity |]); (split; [discriminate |]);
      intros _; rewrite ?app_nil_r in *; [left | right]; eauto.
  - exec. eexists _, _. split; [reflexivity |]. simpl. rewrite last_snoc.
    split; [reflexivity |]. split; [by intros _ | discriminate].
Qed.

Lemma compare_results_returns s original_file gemini_file :
  exists b s',
    compare_results original_file gemini_file s = (Ok b, s')
    /\ files s' = files s /\ world s' = world s /\ calls s' = calls s.
Proof.
  pose proof (readonly_compare_results_try original_file gemini_file s) as Hro.
  unfold compare_results, try_except.
  destruct (compare_results_try original_file gemini_file s) as [[b | e] s1];
    simpl in Hro; destruct Hro as (Hf & Hw & Hc & _); exec; eexists _, _;
    (split; [reflexivity |]); by repeat split.
Qed.

(** X18: in its comparison mode ([--compare] without [--file]) [main]
    never raises and is read-only, whatever the argument and the disk:
    no file is written, no service is called. *)
Theorem main_compare_mode s args listing compare :
  arg_file args = None \/ arg_file args = Some [] ->
  arg_compare args = Some compare -> compare <> [] ->
  exists s',
    main args listing s = (Ok tt, s')
    /\ files s' = files s /\ world s' = world s /\ calls s' = calls s.
Proof.
  intros Hfile Hcompare Hne. unfold main. rewrite Hcompare.
  destruct compare as [| c compare]; [done |].
  assert (Hrun : exists s', main_compare (c :: compare) s = (Ok tt, s')
                   /\ files s' = files s /\ world s' = world s /\ calls s' = calls s).
  { unfold main_compare. exec.
    destruct (_ && _).
    - destruct (compare_results_returns s
                  (PyStr.replace (lit "_gemini.json") (lit ".json") (c :: compare))
                  (c :: compare)) as (b & s' & -> & Hf & Hw & Hc).
      by exists s'.
    - eexists. split; [reflexivity |]. by repeat split. }
  by destruct Hfile as [-> | ->].
Qed.

End EntryPointFacts.

(** ** When the comparison goes through *)

Section ComparableFacts.

Context `{Services}.

Ltac json_cases :=
  repeat (match goal with
          | |- context [match ?x with
                        | JNull => _ | JBool _ => _ | JInt _ => _ | JFloat _ => _
                        | JStr _ => _ | JArr _ => _ | JObj _ => _ end] =>
              destruct x eqn:?
          end; exec; rewrite ?andb_false_r; try reflexivity).

(** X19: on two files that hold JSON, [compare_results] returns [True]
    exactly when both records are comparable: each is an object whose
    [summary], if it has one, has a length (a string, a list or an
    object) and whose [valon_reflection], if it has one, is an object.
    On any other pair it returns [False]. *)
Theorem compare_results_true_iff s original_file gemini_file original gemini :
  files s !! original_file = Some (JsonFile original) ->
  files s !! gemini_file = Some (JsonFile gemini) ->
  (compare_results original_file gemini_file s).1
  = Ok (comparable original && comparable gemini).
Proof.
  intros Horiginal Hgemini. unfold compare_results, compare_results_try. exec.
  rewrite Horiginal. exec. rewrite Hgemini. exec.
  unfold comparable.
  destruct original; exec; try reflexivity;
    destruct gemini; exec; rewrite ?andb_false_r; try reflexivity.
  json_cases.
Qed.

(** X20: on two comparable records the comparison prints nine lines:
    the two processors (by default [mistral] and [gemini]), the two
    summary lengths side by side, and the symbolic terms and emotions
    of the two reflections (by default the empty list). *)
Theorem compare_results_lines s original_file gemini_file d1 d2 :
  files s !! original_file = Some (JsonFile (JObj d1)) ->
  files s !! gemini_file = Some (JsonFile (JObj d2)) ->
  comparable (JObj d1) = true -> comparable (JObj d2) = true ->
  compare_results original_file gemini_file s
  = (Ok true,
     {| world := world s; files := files s;
        stdout := stdout s ++
          [nl ++ lit "=== COMPARISON RESULTS ===";
           lit "Original processor: "
             ++ py_str (default (JStr (lit "mistral")) (Dict.get (lit "processor") d1));
           lit "Gemini processor: "
             ++ py_str (default (JStr (lit "gemini")) (Dict.get (lit "processor") d2));
           lit "Summary length - Original: "
             ++ PyStr.of_Z (value_len (default (JStr []) (Dict.get (lit "summary") d1)))
             ++ lit ", Gemini: "
             ++ PyStr.of_Z (value_len (default (JStr []) (Dict.get (lit "summary") d2)));
           nl ++ lit "=== VALON REFLECTION COMPARISON ===";
           lit "Original symbolic terms: "
             ++ py_str (default (JArr [])
                  (Dict.get (lit "symbolic_terms")
                     (match default (JObj []) (Dict.get (lit "valon_reflection") d1) with
                      | JObj r => r | _ => [] end)));
           lit "Gemini symbolic terms: "
             ++ py_str (default (JArr [])
                  (Dict.get (lit "symbolic_terms")
                     (match default (JObj []) (Dict.get (lit "valon_reflection") d2) with
                      | JObj r => r | _ => [] end)));
           lit "Original emotions: "
             ++ py_str (default (JArr [])
                  (Dict.get (lit "emotions")
                     (match default (JObj []) (Dict.get (lit "valon_reflection") d1) with
                      | JObj r => r | _ => [] end)));
           lit "Gemini emotions: "
             ++ py_str (default (JArr [])
                  (Dict.get (lit "emotions")
                     (match default (JObj []) (Dict.get (lit "valon_reflection") d2) with
                      | JObj r => r | _ => [] end)))];
        calls := calls s |}).
Proof.
  intros Horiginal Hgemini Hc1 Hc2. unfold comparable in *.
  apply andb_true_iff in Hc1 as [Hlen1 Hdict1].
  apply andb_true_iff in Hc2 as [Hlen2 Hdict2].
  unfold compare_results, compare_results_try. exec.
  rewrite Horiginal. exec. rewrite Hgemini. exec.
  destruct (default (JStr []) (Dict.get (lit "summary") d1)); try discriminate;
    destruct (default (JStr []) (Dict.get (lit "summary") d2)); try discriminate;
    destruct (default (JObj []) (Dict.get (lit "valon_reflection") d1)); try discriminate;
    destruct (default (JObj []) (Dict.get (lit "valon_reflection") d2)); try discriminate;
    exec; rewrite <- ?app_assoc; reflexivity.
Qed.

End ComparableFacts.

(** ** The archived comparison script *)

Section CompareScriptFacts.

Context `{Services}.

Lemma readonly_path_exists path : readonly (path_exists path).
Proof. intros s. simpl. repeat split. exists []. by rewrite app_nil_r. Qed.

Lemma readonly_py_iter v : readonly (CompareScript.py_iter v).
Proof. destruct v; first [apply readonly_ret | apply readonly_raise]. Qed.

Lemma readonly_compare_records mistral_files gemini_results :
  readonly (CompareScript.compare_records mistral_files gemini_results).
Proof.
  induction gemini_results as [| r rest IH]; simpl; [apply readonly_ret |].
  apply readonly_bind; [apply readonly_compare_record | intros _; exact IH].
Qed.

(** X21: the archived comparison script only reads and prints: whatever
    the walk finds and the files hold, and whether it returns or
    raises, it leaves every file, the world and the call record as they
    were. *)
Theorem compare_script_readonly (walk : list (str * list str)) :
  readonly (CompareScript.compare_results walk).
Proof.
  unfold CompareScript.compare_results.
  apply readonly_bind; [apply readonly_print | intros _].
  apply readonly_bind; [apply readonly_path_exists | intros present].
  destruct (negb present); [apply readonly_print |].
  destruct (bool_decide _); [apply readonly_print |].
  repeat first
    [ apply readonly_print | apply readonly_read_json | apply readonly_py_len
    | apply readonly_py_iter | apply readonly_compare_records
    | apply readonly_bind; [| intros ?] ].
Qed.

(** X22: a record whose [source] is there and is not a string stops
    the script when there is a Mistral file to match: after the line
    [--- Comparing ... ---] the search raises [AttributeError], outside
    the [try], and the records after it are not compared. *)
Theorem compare_record_bad_source s mistral_file rest d v others :
  Dict.get (lit "source") d = Some v ->
  (forall name, v <> JStr name) ->
  exists s',
    compare_record (mistral_file :: rest) (JObj d) s
    = (Raise (AttributeError (lit "replace")), s')
    /\ CompareScript.compare_records (mistral_file :: rest) (JObj d :: others) s
       = (Raise (AttributeError (lit "replace")), s')
    /\ stdout s' = stdout s ++ [nl ++ lit "--- Comparing " ++ py_repr v ++ lit " ---"].
Proof.
  intros Hsource Hv. simpl. unfold compare_record. exec. rewrite Hsource. simpl.
  destruct v; try (by destruct (Hv s0)); unfold py_replace; exec;
    eexists; (split; [reflexivity |]); by split.
Qed.

Lemma compare_records_skip mistral_files results s :
  Forall (fun r => is_dict r = false) results ->
  CompareScript.compare_records mistral_files results s = (Ok tt, s).
Proof.
  induction 1 as [| r results Hr _ IH]; [reflexivity |]. simpl.
  destruct r; try discriminate; exec; exact IH.
Qed.

(** X23: records that are not objects are passed over without a word:
    on a results file that holds a list of such values (the error
    strings the test script stores for the PDFs it could not read), and
    with a Mistral file to compare with, the script prints its header,
    the two counts and its two closing lines, and compares nothing. *)
Theorem compare_script_skips_strings s walk results :
  files s !! lit "gemini_test_results.json" = Some (JsonFile (JArr results)) ->
  Forall (fun r => is_dict r = false) results ->
  CompareScript.mistral_files_of walk <> [] ->
  CompareScript.compare_results walk s
  = (Ok tt,
     {| world := world s; files := files s;
        stdout := stdout s ++
          [lit "=== SYNTRA Results Comparison ===";
           lit "Found " ++ PyStr.of_Z (Py.len (CompareScript.mistral_files_of walk))
             ++ lit " Mistral result files";
           lit "Found " ++ PyStr.of_Z (Py.len results) ++ lit " Gemini results";
           nl ++ lit "--- Comparison complete ---";
           lit "Delete gemini_test_results.json when done to remove API key."];
        calls := calls s |}).
Proof.
  intros Hfile Hskip Hmistral. unfold CompareScript.compare_results. exec.
  rewrite Hfile. simpl. rewrite bool_decide_eq_false_2 by assumption. exec.
  rewrite Hfile. exec. rewrite compare_records_skip by assumption.
  simpl. by rewrite <- !app_assoc.
Qed.

End CompareScriptFacts.

(** ** More closed runs *)

Lemma log_error_appends_witness :
  prior_error_log (files (@start_state blank_services tt ∅)) = Some []
  /\ exists s' timestamp,
       @log_error blank_services (lit "Failed to extract text") (lit "a.pdf")
         (@start_state blank_services tt ∅) = (Ok tt, s')
       /\ prior_error_log (files s')
          = Some [error_entry (lit "Failed to extract text") (lit "a.pdf") timestamp].
Proof.
  assert (Hlog : prior_error_log (files (@start_state blank_services tt ∅)) = Some [])
    by (vm_compute; reflexivity).
  split; [exact Hlog |].
  destruct (@log_error_appends blank_services (@start_state blank_services tt ∅)
              (lit "Failed to extract text") (lit "a.pdf") [] Hlog)
    as (s' & timestamp & Hrun & Hnew & _).
  exists s', timestamp. split; [exact Hrun | exact Hnew].
Defined.

Lemma log_error_corrupt_log_witness :
  prior_error_log (files (@start_state blank_services tt corrupt_log)) = None
  /\ exists e,
       (@log_error blank_services (lit "Failed to extract text") (lit "a.pdf")
          (@start_state blank_services tt corrupt_log)).1 = Raise e.
Proof.
  assert (Hlog : prior_error_log (files (@start_state blank_services tt corrupt_log))
                 = None) by (vm_compute; reflexivity).
  split; [exact Hlog |].
  destruct (@log_error_corrupt_log blank_services
              (@start_state blank_services tt corrupt_log)
              (lit "Failed to extract text") (lit "a.pdf") Hlog) as (e & Hrun & _).
  exists e. exact Hrun.
Defined.

Lemma update_valon_archive_keeps_keys_witness :
  prior_archive
    (files (@start_state blank_services tt {[VALON_ARCHIVE := JsonFile (JObj bare_archive)]}))
  = Some (JObj bare_archive)
  /\ Dict.get (lit "symbolic_events") bare_archive = Some (JArr [])
  /\ exists s' d',
       @update_valon_archive blank_services (lit "a.pdf") JNull
         (@start_state blank_services tt {[VALON_ARCHIVE := JsonFile (JObj bare_archive)]})
       = (Ok tt, s')
       /\ files s' !! VALON_ARCHIVE = Some (JsonFile (JObj d'))
       /\ d'.*1 = [lit "symbolic_events"]
       /\ valid_archive (JObj d') = false.
Proof.
  set (s := @start_state blank_services tt
              {[VALON_ARCHIVE := JsonFile (JObj bare_archive)]}).
  assert (Hprior : prior_archive (files s) = Some (JObj bare_archive)).
  { unfold prior_archive, s. simpl. by rewrite lookup_singleton_eq. }
  assert (Hget : Dict.get (lit "symbolic_events") bare_archive = Some (JArr []))
    by (vm_compute; reflexivity).
  split; [exact Hprior |]. split; [exact Hget |].
  destruct (@update_valon_archive_keeps_keys blank_services s (lit "a.pdf") JNull
              bare_archive [] Hprior Hget) as (s' & d' & Hrun & Hfile & Hkeys & Hvalid).
  exists s', d'. split; [exact Hrun |]. split; [exact Hfile |].
  split; [by rewrite Hkeys |]. rewrite Hvalid. vm_compute. reflexivity.
Defined.

Lemma process_pdf_reader_fails_witness :
  (@pdf_page_texts broken_reader_services (lit "source_pdfs/a.pdf") tt).1
  = inl (LibraryError (lit "EOF marker not found"))
  /\ prior_error_log (∅ : gmap str file) = Some []
  /\ exists s',
       @process_pdf broken_reader_services (lit "source_pdfs/a.pdf") (lit "a.pdf") false
         (@start_state broken_reader_services tt ∅) = (Ok false, s')
       /\ calls s' = [].
Proof.
  assert (Hlog : prior_error_log (files (@start_state broken_reader_services tt ∅))
                 = Some []) by (vm_compute; reflexivity).
  split; [reflexivity |]. split; [exact Hlog |].
  destruct (@process_pdf_reader_fails broken_reader_services
              (@start_state broken_reader_services tt ∅)
              (lit "source_pdfs/a.pdf") (lit "a.pdf") false
              (LibraryError (lit "EOF marker not found")) [] eq_refl Hlog)
    as (s' & timestamp & Hrun & Hcalls & _).
  exists s'. split; [exact Hrun | exact Hcalls].
Defined.

Lemma process_pdf_writes_witness :
  (@pdf_page_texts quota_services (lit "source_pdfs/a.pdf") tt).1
  = inr [lit "Brake fluid."]
  /\ page_blocks 0 [lit "Brake fluid."] <> []
  /\ archive_events (∅ : gmap str file) = Some []
  /\ modi_path (lit "a.pdf") <> valon_path (lit "a.pdf")
  /\ exists s' reflection timestamp,
       @process_pdf quota_services (lit "source_pdfs/a.pdf") (lit "a.pdf") false
         (@start_state quota_services tt ∅) = (Ok true, s')
       /\ archive_events (files s')
          = Some [symbolic_event (lit "a.pdf") reflection timestamp].
Proof.
  assert (Htext : page_blocks 0 [lit "Brake fluid."] <> []) by (vm_compute; discriminate).
  assert (Hevents : archive_events (files (@start_state quota_services tt ∅)) = Some [])
    by (vm_compute; reflexivity).
  assert (Hpaths : modi_path (lit "a.pdf") <> valon_path (lit "a.pdf"))
    by (vm_compute; discriminate).
  split; [reflexivity |]. split; [exact Htext |]. split; [exact Hevents |].
  split; [exact Hpaths |].
  destruct (@process_pdf_writes quota_services (@start_state quota_services tt ∅)
              (lit "source_pdfs/a.pdf") (lit "a.pdf") [lit "Brake fluid."] []
              eq_refl Htext Hevents Hpaths)
    as (s' & blocks & timestamp & reflection & timestamp' & entry & Hrun & _ & _ & _
        & _ & Harchive & _).
  exists s', reflection, timestamp'. split; [exact Hrun | exact Harchive].
Defined.

Lemma process_pdf_link_raises_witness :
  (@pdf_page_texts quota_services (lit "source_pdfs/a.pdf") tt).1
  = inr [lit "Brake fluid."]
  /\ page_blocks 0 [lit "Brake fluid."] <> []
  /\ exists s',
       @process_pdf quota_services (lit "source_pdfs/a.pdf") (lit "a.pdf") true
         (@start_state quota_services tt ∅)
       = (Raise (NameError (lit "assign_uid")), s')
       /\ files s' = ∅.
Proof.
  assert (Htext : page_blocks 0 [lit "Brake fluid."] <> []) by (vm_compute; discriminate).
  split; [reflexivity |]. split; [exact Htext |].
  destruct (@process_pdf_link_raises quota_services (@start_state quota_services tt ∅)
              (lit "source_pdfs/a.pdf") (lit "a.pdf") [lit "Brake fluid."]
              eq_refl Htext) as (s' & Hrun & Hfiles & _).
  exists s'. split; [exact Hrun | exact Hfiles].
Defined.

Lemma process_pdf_corrupt_archive_witness :
  (@pdf_page_texts quota_services (lit "source_pdfs/a.pdf") tt).1
  = inr [lit "Brake fluid."]
  /\ page_blocks 0 [lit "Brake fluid."] <> []
  /\ archive_events corrupt_archive = None
  /\ exists e s' entry,
       @process_pdf quota_services (lit "source_pdfs/a.pdf") (lit "a.pdf") false
         (@start_state quota_services tt corrupt_archive) = (Raise e, s')
       /\ files s' = <[modi_path (lit "a.pdf") := JsonFile (JObj entry)]> corrupt_archive.
Proof.
  assert (Htext : page_blocks 0 [lit "Brake fluid."] <> []) by (vm_compute; discriminate).
  assert (Hevents : archive_events
                      (files (@start_state quota_services tt corrupt_archive)) = None)
    by (vm_compute; reflexivity).
  split; [reflexivity |]. split; [exact Htext |]. split; [exact Hevents |].
  destruct (@process_pdf_corrupt_archive quota_services
              (@start_state quota_services tt corrupt_archive)
              (lit "source_pdfs/a.pdf") (lit "a.pdf") [lit "Brake fluid."]
              eq_refl Htext Hevents) as (e & s' & entry & Hrun & Hfiles & _).
  exists e, s', entry. split; [exact Hrun | exact Hfiles].
Defined.

Lemma process_directory_counts_witness :
  archive_events (∅ : gmap str file) = Some []
  /\ prior_error_log (∅ : gmap str file) = Some []
  /\ exists s' events entries,
       @process_directory quota_services [lit "a.pdf"; lit "notes.txt"; lit "b.pdf"] false
         (@start_state quota_services tt ∅) = (Ok tt, s')
       /\ archive_events (files s') = Some events
       /\ prior_error_log (files s') = Some entries
       /\ (length events + length entries = 2)%nat.
Proof.
  assert (Hevents : archive_events (files (@start_state quota_services tt ∅)) = Some [])
    by (vm_compute; reflexivity).
  assert (Hlog : prior_error_log (files (@start_state quota_services tt ∅)) = Some [])
    by (vm_compute; reflexivity).
  split; [exact Hevents |]. split; [exact Hlog |].
  destruct (@process_directory_counts quota_services (@start_state quota_services tt ∅)
              [lit "a.pdf"; lit "notes.txt"; lit "b.pdf"] [] [] Hevents Hlog)
    as (s' & events & entries & Hrun & Hev & Hen & Hcount & _).
  exists s', events, entries. split; [exact Hrun |]. split; [exact Hev |].
  split; [exact Hen |]. rewrite Hcount. vm_compute. reflexivity.
Defined.

Lemma process_directory_link_aborts_witness :
  prior_error_log (∅ : gmap str file) = Some []
  /\ exists s' entry,
       @process_directory mixed_services [lit "blank.pdf"; lit "a.pdf"; lit "b.pdf"] true
         (@start_state mixed_services tt ∅)
       = (Raise (NameError (lit "assign_uid")), s')
       /\ prior_error_log (files s') = Some [entry]
       /\ files s' !! VALON_ARCHIVE = None
       /\ files s' !! modi_path (lit "a.pdf") = None.
Proof.
  assert (Hlog : prior_error_log (files (@start_state mixed_services tt ∅)) = Some [])
    by (vm_compute; reflexivity).
  split; [exact Hlog |].
  destruct (@process_directory_link_aborts mixed_services
              (@start_state mixed_services tt ∅)
              [lit "blank.pdf"; lit "a.pdf"; lit "b.pdf"] [] Hlog)
    as (out & s' & entries & Hrun & Hlog' & Hframe & _).
  assert (Hraise : (@process_directory mixed_services
                      [lit "blank.pdf"; lit "a.pdf"; lit "b.pdf"] true
                      (@start_state mixed_services tt ∅)).1
                   = Raise (NameError (lit "assign_uid")))
    by (vm_compute; reflexivity).
  rewrite Hrun in Hraise. cbn [fst] in Hraise. subst out.
  assert (Hlen : length <$> prior_error_log
                   (files (@process_directory mixed_services
                             [lit "blank.pdf"; lit "a.pdf"; lit "b.pdf"] true
                             (@start_state mixed_services tt ∅)).2) = Some 1%nat)
    by (vm_compute; reflexivity).
  rewrite Hrun in Hlen. cbn [snd] in Hlen. rewrite Hlog' in Hlen.
  cbn [fmap option_fmap option_map app length] in Hlen. injection Hlen as Hlen.
  destruct entries as [| entry [| ? ?]]; try discriminate Hlen.
  exists s', entry. split; [exact Hrun |]. split; [exact Hlog' |].
  split; (rewrite Hframe; [reflexivity | vm_compute; discriminate]).
Defined.

Lemma process_specific_file_returns_witness :
  archive_events (∅ : gmap str file) = Some []
  /\ prior_error_log (∅ : gmap str file) = Some []
  /\ PyStr.ends_with (lit ".pdf") (basename (lit "/home/me/a.pdf")) = true
  /\ exists s' event,
       @process_specific_file quota_services (lit "/home/me/a.pdf") false
         (@start_state quota_services tt ∅) = (Ok tt, s')
       /\ last (stdout s')
          = Some (lit "[COMPLETE] Successfully processed a.pdf with Gemini")
       /\ archive_events (files s') = Some [event]
       /\ prior_error_log (files s') = Some [].
Proof.
  assert (Hevents : archive_events (files (@start_state quota_services tt ∅)) = Some [])
    by (vm_compute; reflexivity).
  assert (Hlog : prior_error_log (files (@start_state quota_services tt ∅)) = Some [])
    by (vm_compute; reflexivity).
  assert (Hpdf : PyStr.ends_with (lit ".pdf") (basename (lit "/home/me/a.pdf")) = true)
    by (vm_compute; reflexivity).
  split; [exact Hevents |]. split; [exact Hlog |]. split; [exact Hpdf |].
  destruct (@process_specific_file_returns quota_services
              (@start_state quota_services tt ∅) (lit "/home/me/a.pdf") [] []
              Hevents Hlog) as (s' & line & Hrun & Hlast & _ & Hpath).
  assert (Hlen : length <$> archive_events
                   (files (@process_specific_file quota_services (lit "/home/me/a.pdf")
                             false (@start_state quota_services tt ∅)).2) = Some 1%nat)
    by (vm_compute; reflexivity).
  rewrite Hrun in Hlen. cbn [snd] in Hlen.
  destruct (Hpath Hpdf) as [(Hline & (event & Hev) & Hlog') | (_ & Hev & _)].
  - exists s', event. split; [exact Hrun |].
    split; [rewrite Hlast, Hline; vm_compute; reflexivity |].
    split; [exact Hev | exact Hlog'].
  - rewrite Hev in Hlen. discriminate Hlen.
Defined.

Lemma main_compare_mode_witness :
  (@None str = None \/ @None str = Some [])
  /\ Some (lit "a_gemini.json") = Some (lit "a_gemini.json")
  /\ lit "a_gemini.json" <> []
  /\ exists s',
       @main blank_services
         {| arg_file := None; arg_link := false;
            arg_compare := Some (lit "a_gemini.json") |} []
         (@start_state blank_services tt two_records) = (Ok tt, s')
       /\ files s' = two_records.
Proof.
  assert (Hne : lit "a_gemini.json" <> []) by (vm_compute; discriminate).
  split; [left; reflexivity |]. split; [reflexivity |]. split; [exact Hne |].
  destruct (@main_compare_mode blank_services (@start_state blank_services tt two_records)
              {| arg_file := None; arg_link := false;
                 arg_compare := Some (lit "a_gemini.json") |} []
              (lit "a_gemini.json") (or_introl eq_refl) eq_refl Hne)
    as (s' & Hrun & Hfiles & _).
  exists s'. split; [exact Hrun | exact Hfiles].
Defined.

Lemma compare_results_true_iff_witness :
  two_records !! lit "a.json"
  = Some (JsonFile (JObj [(lit "summary", JStr (lit "abc"));
                          (lit "valon_reflection", JObj [(lit "emotions", JArr [])])]))
  /\ two_records !! lit "gemini_test_results.json"
     = Some (JsonFile (JArr [JStr (lit "[ERROR: Failed to extract text: EOF]")]))
  /\ (@compare_results blank_services (lit "a.json") (lit "gemini_test_results.json")
        (@start_state blank_services tt two_records)).1 = Ok false.
Proof.
  assert (H1 : files (@start_state blank_services tt two_records) !! lit "a.json"
               = Some (JsonFile (JObj [(lit "summary", JStr (lit "abc"));
                          (lit "valon_reflection", JObj [(lit "emotions", JArr [])])])))
    by (vm_compute; reflexivity).
  assert (H2 : files (@start_state blank_services tt two_records)
                 !! lit "gemini_test_results.json"
               = Some (JsonFile (JArr [JStr (lit "[ERROR: Failed to extract text: EOF]")])))
    by (vm_compute; reflexivity).
  split; [exact H1 |]. split; [exact H2 |].
  rewrite (@compare_results_true_iff blank_services _ _ _ _ _ H1 H2).
  vm_compute. reflexivity.
Defined.

Lemma compare_results_lines_witness :
  exists d1 d2,
    two_records !! lit "a.json" = Some (JsonFile (JObj d1))
    /\ two_records !! lit "a_gemini.json" = Some (JsonFile (JObj d2))
    /\ comparable (JObj d1) = true /\ comparable (JObj d2) = true
    /\ stdout (@compare_results blank_services (lit "a.json") (lit "a_gemini.json")
                 (@start_state blank_services tt two_records)).2 !! 3%nat
       = Some (lit "Summary length - Original: 3, Gemini: 3").
Proof.
  eexists _, _.
  assert (H1 : files (@start_state blank_services tt two_records) !! lit "a.json"
               = Some (JsonFile (JObj [(lit "summary", JStr (lit "abc"));
                          (lit "valon_reflection", JObj [(lit "emotions", JArr [])])])))
    by (vm_compute; reflexivity).
  assert (H2 : files (@start_state blank_services tt two_records) !! lit "a_gemini.json"
               = Some (JsonFile (JObj [(lit "summary", JStr (lit "xyz"));
                                       (lit "processor", JStr (lit "gemini"))])))
    by (vm_compute; reflexivity).
  split; [exact H1 |]. split; [exact H2 |].
  assert (Hc1 : comparable (JObj [(lit "summary", JStr (lit "abc"));
                   (lit "valon_reflection", JObj [(lit "emotions", JArr [])])]) = true)
    by (vm_compute; reflexivity).
  assert (Hc2 : comparable (JObj [(lit "summary", JStr (lit "xyz"));
                                  (lit "processor", JStr (lit "gemini"))]) = true)
    by (vm_compute; reflexivity).
  split; [exact Hc1 |]. split; [exact Hc2 |].
  rewrite (@compare_results_lines blank_services _ _ _ _ _ H1 H2 Hc1 Hc2).
  vm_compute. reflexivity.
Defined.

Lemma compare_record_bad_source_witness :
  Dict.get (lit "source") [(lit "source", JInt 7)] = Some (JInt 7)
  /\ (forall name, JInt 7 <> JStr name)
  /\ exists s',
       @compare_record blank_services [lit "memory_vault/modi/a.json"]
         (JObj [(lit "source", JInt 7)]) (@start_state blank_services tt ∅)
       = (Raise (AttributeError (lit "replace")), s').
Proof.
  assert (Hget : Dict.get (lit "source") [(lit "source", JInt 7)] = Some (JInt 7))
    by (vm_compute; reflexivity).
  assert (Hv : forall name, JInt 7 <> JStr name) by discriminate.
  split; [exact Hget |]. split; [exact Hv |].
  destruct (@compare_record_bad_source blank_services (@start_state blank_services tt ∅)
              (lit "memory_vault/modi/a.json") [] [(lit "source", JInt 7)] (JInt 7) []
              Hget Hv) as (s' & Hrun & _).
  exists s'. exact Hrun.
Defined.

Lemma compare_script_skips_strings_witness :
  two_records !! lit "gemini_test_results.json"
  = Some (JsonFile (JArr [JStr (lit "[ERROR: Failed to extract text: EOF]")]))
  /\ Forall (fun r => is_dict r = false)
       [JStr (lit "[ERROR: Failed to extract text: EOF]")]
  /\ CompareScript.mistral_files_of [(lit "memory_vault/modi", [lit "a.json"])] <> []
  /\ exists s',
       @CompareScript.compare_results blank_services
         [(lit "memory_vault/modi", [lit "a.json"])]
         (@start_state blank_services tt two_records) = (Ok tt, s')
       /\ length (stdout s') = 5%nat.
Proof.
  assert (Hfile : files (@start_state blank_services tt two_records)
                    !! lit "gemini_test_results.json"
                  = Some (JsonFile (JArr [JStr (lit "[ERROR: Failed to extract text: EOF]")])))
    by (vm_compute; reflexivity).
  assert (Hskip : Forall (fun r => is_dict r = false)
                    [JStr (lit "[ERROR: Failed to extract text: EOF]")])
    by (repeat constructor).
  assert (Hmistral : CompareScript.mistral_files_of
                       [(lit "memory_vault/modi", [lit "a.json"])] <> [])
    by (vm_compute; discriminate).
  split; [exact Hfile |]. split; [exact Hskip |]. split; [exact Hmistral |].
  eexists. split;
    [apply (@compare_script_skips_strings blank_services _ _ _ Hfile Hskip Hmistral) |].
  reflexivity.
Defined.
